(** * sqlalchemyobjects: database-file lifecycle and table idioms

    A shallow embedding of the Python package [sqlalchemyobjects]:

    - [DatabaseFile]: the handle of [database/databasefile.py] with its
      engines, session factories, life cycle and pickling;
    - [Orm]: the part of the SQLAlchemy session interface the package
      calls (statements, results, transactions);
    - [BaseUpdateTable], [BaseSingletonTable], [BaseMetaInformationTable]:
      the class methods of [tables/base/];
    - [BaseTable]: the parent class of the tables, whose file is absent.

    Python objects are records, [dict]s are [gmap string _], an exception
    is a [Raise] result that leaves the receiver as mutated so far.  Calls
    into SQLAlchemy itself (building an engine, disposing it, emitting the
    schema) are recorded as effects; where such a call can fail between
    two assignments of its caller, the environment says whether it
    does. *)

From stdpp Require Import gmap strings list fin_maps.
From Stdlib Require Import ZArith.

(** ** Python values, exceptions and results *)

Module Py.

(** A column or keyword value: [None] or an integer. *)
Inductive Value : Type :=
| VNone
| VInt (z : Z).

#[global] Instance Value_eq_dec : EqDecision Value.
Proof. solve_decision. Defined.

Inductive exn : Type :=
| IOError (msg : string)
| AttributeError (msg : string)
| TypeError (msg : string)
| KeyError (key : string)
| IndexError
| InvalidRequestError (msg : string)
| MultipleResultsFound
| RuntimeError (msg : string)
| ArgumentError (msg : string).

Inductive result (A : Type) : Type :=
| Ok (a : A)
| Raise (e : exn).

Arguments Ok {A} a.
Arguments Raise {A} e.

(** [o is None] *)
Definition is_None {A : Type} (o : option A) : bool :=
  match o with None => true | Some _ => false end.

(** Truth value of a tuple and of a dict: non-empty. *)
Definition tuple_truthy {A : Type} (args : list A) : bool :=
  match args with [] => false | _ :: _ => true end.

Definition dict_truthy {A : Type} (d : gmap string A) : bool :=
  negb (bool_decide (map_to_list d = [])).

End Py.

(** ** database/databasefile.py *)

Module DatabaseFile.
Import Py.

Abbreviation Kwargs := (gmap string Value).

(** [pathlib.Path], kept in its posix form. *)
Abbreviation Path := string.

(** The schema class; [create_all] only needs to know which one. *)
Abbreviation Schema := string.

(** [sqlalchemy.create_engine(url, **kwargs)] *)
Record Engine : Type := create_engine_
  { engine_url : string; engine_kwargs : Kwargs }.

(** [sqlalchemy.ext.asyncio.create_async_engine(url, **kwargs)] *)
Record AsyncEngine : Type := create_async_engine_
  { async_engine_url : string; async_engine_kwargs : Kwargs }.

(** [sessionmaker(bind, **kwargs)] *)
Record sessionmaker : Type := sessionmaker_
  { maker_bind : option Engine; maker_kwargs : Kwargs }.

(** [async_sessionmaker(bind, **kwargs)] *)
Record async_sessionmaker : Type := async_sessionmaker_
  { async_maker_bind : option AsyncEngine; async_maker_kwargs : Kwargs }.

(** [Session(bind, *args, **kwargs)] *)
Record Session : Type := Session_
  { session_bind : option Engine;
    session_args : list Value;
    session_kwargs : Kwargs }.

(** [AsyncSession(bind, *args, **kwargs)] *)
Record AsyncSession : Type := AsyncSession_
  { async_session_bind : option AsyncEngine;
    async_session_args : list Value;
    async_session_kwargs : Kwargs }.

(** [Session(bind, *args, **kwargs)]: every parameter after [bind] is
    keyword-only, so a further positional argument is a [TypeError]. *)
Definition Session_init (bind : option Engine) (args : list Value) (kwargs : Kwargs)
    : result Session :=
  if tuple_truthy args
  then Raise (TypeError "Session.__init__() takes from 1 to 2 positional arguments")
  else Ok (Session_ bind [] kwargs).

Definition AsyncSession_init (bind : option AsyncEngine) (args : list Value)
    (kwargs : Kwargs) : result AsyncSession :=
  if tuple_truthy args
  then Raise (TypeError "AsyncSession.__init__() takes from 1 to 2 positional arguments")
  else Ok (AsyncSession_ bind [] kwargs).

(** What the methods cannot see from the handle: whether an event loop
    is running, in which case [asyncio.run] raises, and which URL and
    options the two engine constructors refuse, and with what. *)
Record Env : Type := mkEnv
  { running_loop : bool;
    create_engine_error : string → Kwargs → option exn;
    create_async_engine_error : string → Kwargs → option exn }.

(** No loop is running and the constructors accept everything. *)
Definition quiet : Env := mkEnv false (λ _ _, None) (λ _ _, None).

Definition healthy (env : Env) : Prop :=
  running_loop env = false ∧
  (∀ url kwargs, create_engine_error env url kwargs = None) ∧
  (∀ url kwargs, create_async_engine_error env url kwargs = None).

(** Calling a factory: a session on the factory's bind and options. *)
Definition sessionmaker_call (m : sessionmaker) : Session :=
  Session_ (maker_bind m) [] (maker_kwargs m).

Definition async_sessionmaker_call (m : async_sessionmaker) : AsyncSession :=
  AsyncSession_ (async_maker_bind m) [] (async_maker_kwargs m).

(** What a method does to the world outside the handle. *)
Inductive effect : Type :=
| Dispose (e : Engine)
| DisposeAsync (e : AsyncEngine)
| CreateAll (schema : Schema) (e : Engine)
| CreateAllAsync (schema : Schema) (e : AsyncEngine).

(** The attributes of a handle, with their class-level defaults in
    [blank]. *)
Record t : Type := mk
  { _path : option Path;
    _engine : option Engine;
    _async_engine : option AsyncEngine;
    session_maker_kwargs : Kwargs;
    _session_maker : option sessionmaker;
    async_session_maker_kwargs : Kwargs;
    _async_session_maker : option async_sessionmaker;
    schema : option Schema;
    tables : gmap string string }.

Definition blank : t :=
  {| _path := None; _engine := None; _async_engine := None;
     session_maker_kwargs := ∅; _session_maker := None;
     async_session_maker_kwargs := ∅; _async_session_maker := None;
     schema := None; tables := ∅ |}.

Definition with_path (v : option Path) (self : t) : t :=
  mk v (_engine self) (_async_engine self) (session_maker_kwargs self)
     (_session_maker self) (async_session_maker_kwargs self)
     (_async_session_maker self) (schema self) (tables self).

Definition with_engine (v : option Engine) (self : t) : t :=
  mk (_path self) v (_async_engine self) (session_maker_kwargs self)
     (_session_maker self) (async_session_maker_kwargs self)
     (_async_session_maker self) (schema self) (tables self).

Definition with_async_engine (v : option AsyncEngine) (self : t) : t :=
  mk (_path self) (_engine self) v (session_maker_kwargs self)
     (_session_maker self) (async_session_maker_kwargs self)
     (_async_session_maker self) (schema self) (tables self).

Definition with_session_maker (v : option sessionmaker) (self : t) : t :=
  mk (_path self) (_engine self) (_async_engine self)
     (session_maker_kwargs self) v (async_session_maker_kwargs self)
     (_async_session_maker self) (schema self) (tables self).

Definition with_async_session_maker (v : option async_sessionmaker) (self : t) : t :=
  mk (_path self) (_engine self) (_async_engine self)
     (session_maker_kwargs self) (_session_maker self)
     (async_session_maker_kwargs self) v (schema self) (tables self).

Definition with_schema (v : option Schema) (self : t) : t :=
  mk (_path self) (_engine self) (_async_engine self)
     (session_maker_kwargs self) (_session_maker self)
     (async_session_maker_kwargs self) (_async_session_maker self)
     v (tables self).

Definition with_tables (v : gmap string string) (self : t) : t :=
  mk (_path self) (_engine self) (_async_engine self)
     (session_maker_kwargs self) (_session_maker self)
     (async_session_maker_kwargs self) (_async_session_maker self)
     (schema self) v.

(** *** Methods as state transformers

    A method maps the receiver to its result (a value or the exception
    raised), the receiver afterwards and the effects emitted, in order. *)

Definition M (A : Type) : Type := t → result A * t * list effect.

Definition ret {A : Type} (a : A) : M A := λ self, (Ok a, self, []).

Definition raise {A : Type} (e : exn) : M A := λ self, (Raise e, self, []).

Definition bind {A B : Type} (m : M A) (k : A → M B) : M B :=
  λ self,
    match m self with
    | (Ok a, self1, out1) =>
        match k a self1 with
        | (r, self2, out2) => (r, self2, out1 ++ out2)
        end
    | (Raise e, self1, out1) => (Raise e, self1, out1)
    end.

Definition get : M t := λ self, (Ok self, self, []).

Definition modify (f : t → t) : M unit := λ self, (Ok tt, f self, []).

Definition emit (e : effect) : M unit := λ self, (Ok tt, self, [e]).

Notation "'let!' x ':=' m 'in' k" := (bind m (λ x, k))
  (at level 10, x name, m at level 100, k at level 200).

Notation "m1 ;; m2" := (bind m1 (λ _, m2))
  (at level 100, m2 at level 200, right associativity).

Definition outcome {A : Type} (r : result A * t * list effect) : result A :=
  fst (fst r).

Definition after {A : Type} (r : result A * t * list effect) : t :=
  snd (fst r).

Definition effects {A : Type} (r : result A * t * list effect) : list effect :=
  snd r.

(** *** Properties *)

(** The [path] setter; a [str] and a [Path] are the same text here. *)
Definition set_path (value : option Path) : M unit :=
  modify (with_path value).

Definition is_open (self : t) : bool :=
  negb (is_None (_engine self)) && negb (is_None (_async_engine self)).

Section Environment.
Variable env : Env.

(** *** Engine *)

Definition AttributeError_as_posix : exn :=
  AttributeError "'NoneType' object has no attribute 'as_posix'".

Definition create_engine (kwargs : Kwargs) : M unit :=
  (let! self := get in
   match _path self with
   | None => raise AttributeError_as_posix
   | Some p =>
       match create_engine_error env ("sqlite:///" +:+ p) kwargs with
       | Some e => raise e
       | None =>
           modify (with_engine (Some (create_engine_ ("sqlite:///" +:+ p) kwargs)))
       end
   end) ;;
  (let! self := get in
   match _path self with
   | None => raise AttributeError_as_posix
   | Some p =>
       match create_async_engine_error env ("sqlite+aiosqlite:///" +:+ p) kwargs with
       | Some e => raise e
       | None =>
           modify (with_async_engine
                     (Some (create_async_engine_ ("sqlite+aiosqlite:///" +:+ p) kwargs)))
       end
   end).

(** *** Session factories *)

Definition build_session_maker (kwargs : Kwargs) : M sessionmaker :=
  let! self := get in
  let maker := sessionmaker_ (_engine self) kwargs in
  modify (with_session_maker (Some maker)) ;;
  ret maker.

Definition build_async_session_maker (kwargs : Kwargs) : M async_sessionmaker :=
  let! self := get in
  let maker := async_sessionmaker_ (_async_engine self) kwargs in
  modify (with_async_session_maker (Some maker)) ;;
  ret maker.

(** *** File *)

Definition create_file (path : option Path) (kwargs : Kwargs) : M unit :=
  (match path with
   | Some p => set_path (Some p)
   | None => ret tt
   end) ;;
  (let! self := get in
   if is_None (_engine self) || negb (is_None path)
   then create_engine kwargs
   else ret tt) ;;
  (let! self := get in
   match schema self with
   | None => raise (AttributeError "'NoneType' object has no attribute 'metadata'")
   | Some s =>
       match _engine self with
       | None => raise (AttributeError "'NoneType' object has no attribute '_run_ddl_visitor'")
       | Some e => emit (CreateAll s e)
       end
   end).

Definition create_file_async (path : option Path) (kwargs : Kwargs) : M unit :=
  (match path with
   | Some p => set_path (Some p)
   | None => ret tt
   end) ;;
  (let! self := get in
   if is_None (_async_engine self) || negb (is_None path)
   then create_engine kwargs
   else ret tt) ;;
  (let! self := get in
   match _async_engine self with
   | None => raise (AttributeError "'NoneType' object has no attribute 'begin'")
   | Some e =>
       match schema self with
       | None => raise (AttributeError "'NoneType' object has no attribute 'metadata'")
       | Some s => emit (CreateAllAsync s e)
       end
   end).

(** [open] returns the handle itself, which is the receiver afterwards. *)
Definition open (kwargs : Kwargs) : M unit :=
  create_engine kwargs ;;
  build_session_maker ∅ ;;
  build_async_session_maker ∅ ;;
  ret tt.

Definition close : M bool :=
  (let! self := get in
   match _engine self with
   | Some e => emit (Dispose e) ;; modify (with_engine None)
   | None => ret tt
   end) ;;
  modify (with_session_maker None) ;;
  (let! self := get in
   match _async_engine self with
   | Some e =>
       (if running_loop env
        then raise (RuntimeError "asyncio.run() cannot be called from a running event loop")
        else emit (DisposeAsync e)) ;;
       modify (with_async_engine None)
   | None => ret tt
   end) ;;
  modify (with_async_session_maker None) ;;
  let! self := get in
  ret (is_None (_engine self)).

Definition close_async : M bool :=
  (let! self := get in
   match _engine self with
   | Some e => emit (Dispose e) ;; modify (with_engine None)
   | None => ret tt
   end) ;;
  (let! self := get in
   match _async_engine self with
   | Some e => emit (DisposeAsync e) ;; modify (with_async_engine None)
   | None => ret tt
   end) ;;
  modify (with_async_session_maker None) ;;
  let! self := get in
  ret (is_None (_engine self)).

(** *** Session *)

Definition create_session (args : list Value) (kwargs : Kwargs) : M Session :=
  let! self := get in
  if negb (is_open self) then raise (IOError "File not open")
  else if tuple_truthy args || dict_truthy kwargs
  then match Session_init (_engine self) args kwargs with
       | Ok session => ret session
       | Raise e => raise e
       end
  else
    match _session_maker self with
    | Some maker => ret (sessionmaker_call maker)
    | None => raise (TypeError "'NoneType' object is not callable")
    end.

Definition create_async_session (args : list Value) (kwargs : Kwargs) : M AsyncSession :=
  let! self := get in
  if negb (is_open self) then raise (IOError "File not open")
  else if tuple_truthy args || dict_truthy kwargs
  then match AsyncSession_init (_async_engine self) args kwargs with
       | Ok session => ret session
       | Raise e => raise e
       end
  else
    match _async_session_maker self with
    | Some maker => ret (async_sessionmaker_call maker)
    | None => raise (TypeError "'NoneType' object is not callable")
    end.

(** *** Construction *)

(** [construct]; the components it hands to the parent class are not
    attributes of the file handle and are left out. *)
Definition construct (path : option Path) (schema_ : option Schema)
    (tables_ : option (gmap string string)) (open_ create : bool)
    (kwargs : Kwargs) : M unit :=
  (match path with
   | Some p => set_path (Some p)
   | None => ret tt
   end) ;;
  (match schema_ with
   | Some s => modify (with_schema (Some s))
   | None => ret tt
   end) ;;
  (match tables_ with
   | Some ts => modify (with_tables ∅) ;; modify (λ self, with_tables (ts ∪ tables self) self)
   | None => ret tt
   end) ;;
  (if create then create_file None ∅ ;; close ;; ret tt else ret tt) ;;
  (if open_ then open kwargs else ret tt).

(** [__init__]: a new object carries the class-level defaults, then
    [construct] runs when [init] is set. *)
Definition __init__ (path : option Path) (schema_ : option Schema)
    (tables_ : option (gmap string string)) (open_ create init : bool)
    (kwargs : Kwargs) : result unit * t * list effect :=
  if init then construct path schema_ tables_ open_ create kwargs blank
  else (Ok tt, blank, []).

(** *** Pickling *)

(** A value held by an attribute, as it appears in a state dict. *)
Inductive Attr : Type :=
| ANone
| ABool (b : bool)
| APath (p : Path)
| AEngine (e : Engine)
| AAsyncEngine (e : AsyncEngine)
| AMaker (m : sessionmaker)
| AAsyncMaker (m : async_sessionmaker)
| ASchema (s : Schema)
| ATables (ts : gmap string string)
| AKwargs (kw : Kwargs).

Definition attr {A : Type} (f : A → Attr) (o : option A) : Attr :=
  match o with Some x => f x | None => ANone end.

(** The parent's [__getstate__]: the attributes of the object, by name. *)
Definition object_getstate (self : t) : gmap string Attr :=
  list_to_map
    [ ("_path", attr APath (_path self));
      ("_engine", attr AEngine (_engine self));
      ("_async_engine", attr AAsyncEngine (_async_engine self));
      ("session_maker_kwargs", AKwargs (session_maker_kwargs self));
      ("_session_maker", attr AMaker (_session_maker self));
      ("async_session_maker_kwargs", AKwargs (async_session_maker_kwargs self));
      ("_async_session_maker", attr AAsyncMaker (_async_session_maker self));
      ("schema", attr ASchema (schema self));
      ("tables", ATables (tables self)) ].

Definition live_names : list string :=
  ["_engine"; "_async_engine"; "_session_maker"; "_async_session_maker"].

Definition __getstate__ (self : t) : gmap string Attr :=
  let state := <["is_open" := ABool (is_open self)]> (object_getstate self) in
  foldl (λ state name,
           match state !! name with
           | Some _ => delete name state
           | None => state
           end)
        state live_names.

(** The parent's [__setstate__]: every attribute named in the state is
    overwritten, the others are kept.  An entry whose value is not of the
    attribute's declared type counts as absent. *)
Definition object_setstate (state : gmap string Attr) (self : t) : t :=
  {| _path :=
       match state !! "_path" with
       | Some (APath p) => Some p | Some ANone => None | _ => _path self end;
     _engine :=
       match state !! "_engine" with
       | Some (AEngine e) => Some e | Some ANone => None | _ => _engine self end;
     _async_engine :=
       match state !! "_async_engine" with
       | Some (AAsyncEngine e) => Some e | Some ANone => None
       | _ => _async_engine self end;
     session_maker_kwargs :=
       match state !! "session_maker_kwargs" with
       | Some (AKwargs kw) => kw | _ => session_maker_kwargs self end;
     _session_maker :=
       match state !! "_session_maker" with
       | Some (AMaker m) => Some m | Some ANone => None
       | _ => _session_maker self end;
     async_session_maker_kwargs :=
       match state !! "async_session_maker_kwargs" with
       | Some (AKwargs kw) => kw | _ => async_session_maker_kwargs self end;
     _async_session_maker :=
       match state !! "_async_session_maker" with
       | Some (AAsyncMaker m) => Some m | Some ANone => None
       | _ => _async_session_maker self end;
     schema :=
       match state !! "schema" with
       | Some (ASchema s) => Some s | Some ANone => None | _ => schema self end;
     tables :=
       match state !! "tables" with
       | Some (ATables ts) => ts | _ => tables self end |}.

(** Truth value of an attribute value. *)
Definition truthy (a : Attr) : bool :=
  match a with
  | ANone => false
  | ABool b => b
  | ATables ts => dict_truthy ts
  | AKwargs kw => dict_truthy kw
  | _ => true
  end.

Definition __setstate__ (state : gmap string Attr) : M unit :=
  match state !! "is_open" with
  | None => raise (KeyError "is_open")
  | Some was_open =>
      modify (object_setstate (delete "is_open" state)) ;;
      (if truthy was_open then open ∅ else ret tt)
  end.

(** Unpickling allocates an object without running [__init__] and hands
    it the state. *)
Definition unpickle (state : gmap string Attr) : result unit * t * list effect :=
  __setstate__ state blank.

(** *** Sequences of calls *)

Inductive call : Type :=
| Call_construct (path : option Path) (schema_ : option Schema)
    (tables_ : option (gmap string string)) (open_ create : bool) (kwargs : Kwargs)
| Call_set_path (value : option Path)
| Call_create_file (path : option Path) (kwargs : Kwargs)
| Call_create_file_async (path : option Path) (kwargs : Kwargs)
| Call_open (kwargs : Kwargs)
| Call_close
| Call_close_async
| Call_create_engine (kwargs : Kwargs)
| Call_build_session_maker (kwargs : Kwargs)
| Call_build_async_session_maker (kwargs : Kwargs).

(** The handle after a call, whether it returned or raised. *)
Definition perform (c : call) (self : t) : t :=
  match c with
  | Call_construct p s ts o cr kw => after (construct p s ts o cr kw self)
  | Call_set_path v => after (set_path v self)
  | Call_create_file p kw => after (create_file p kw self)
  | Call_create_file_async p kw => after (create_file_async p kw self)
  | Call_open kw => after (open kw self)
  | Call_close => after (close self)
  | Call_close_async => after (close_async self)
  | Call_create_engine kw => after (create_engine kw self)
  | Call_build_session_maker kw => after (build_session_maker kw self)
  | Call_build_async_session_maker kw => after (build_async_session_maker kw self)
  end.

(** A new object, then the calls from left to right. *)
Definition run (calls : list call) : t := foldl (λ self c, perform c self) blank calls.

End Environment.

(** *** Notions used to state the properties *)

(** The two engines are both absent or both present. *)
Definition paired (self : t) : Prop :=
  is_None (_engine self) = is_None (_async_engine self).

(** A handle built with a path and a schema, neither created nor opened. *)
Definition db_new : t :=
  after (__init__ quiet (Some "db.sqlite") (Some "Base") None false false true ∅).

(** The same handle after [create_file()] alone. *)
Definition db_created : t := after (create_file quiet None ∅ db_new).

(** The same handle after [open()]. *)
Definition db_open : t := after (open quiet ∅ db_new).

(** The engines a handle holds, as [close] disposes of them. *)
Definition disposals (self : t) : list effect :=
  match _engine self with Some e => [Dispose e] | None => [] end
  ++ match _async_engine self with Some a => [DisposeAsync a] | None => [] end.


(** A handle with an engine has a path. *)
Definition has_path (self : t) : Prop :=
  is_None (_engine self) || negb (is_None (_path self)) = true.

End DatabaseFile.

(** ** The SQLAlchemy session, as far as the tables use it

    A session is seen through the rows of the mapped table it reads and
    writes, in the engine's result order, and through whether a
    transaction has begun on it.  Pending changes are flushed before the
    next query of the same session, so a query sees the rows as last
    written through the session. *)

Module Orm.
Import Py.

Section Session.
Context {Row : Type}.

Record Session : Type := mkSession
  { table : list Row;
    in_transaction : bool }.

(** One column of one result row: a mapped object, which stays tied to
    the table row it was loaded from, or a plain value. *)
Inductive Cell : Type :=
| Entity (index : nat) (row : Row)
| Scalar (v : Value).

Abbreviation Result := (list (list Cell)).

(** [column >= bound] and [column > bound]; a comparison with NULL is
    not true. *)
Inductive Criterion : Type :=
| Ge (column : Row → Value) (bound : Z)
| Gt (column : Row → Value) (bound : Z).

Definition holds (c : Criterion) (r : Row) : bool :=
  match c with
  | Ge column bound =>
      match column r with
      | VInt z => (bound <=? z)%Z
      | VNone => false
      end
  | Gt column bound =>
      match column r with
      | VInt z => (bound <? z)%Z
      | VNone => false
      end
  end.

Inductive Projection : Type :=
| Entities
| Max (column : Row → Value).

Record Statement : Type := mkStatement
  { projection : Projection;
    whereclause : list Criterion }.

(** [select(cls)] *)
Definition select_entities : Statement := mkStatement Entities [].

(** [select(func.max(column))] *)
Definition select_max (column : Row → Value) : Statement :=
  mkStatement (Max column) [].

(** [s.where(c)] *)
Definition where_ (c : Criterion) (s : Statement) : Statement :=
  mkStatement (projection s) (whereclause s ++ [c]).

(** SQL [max]: NULLs are skipped, and the maximum of nothing is NULL. *)
Definition sql_max2 (v acc : Value) : Value :=
  match v, acc with
  | VNone, _ => acc
  | VInt z, VNone => VInt z
  | VInt z, VInt a => VInt (Z.max z a)
  end.

Definition sql_max (vs : list Value) : Value := foldr sql_max2 VNone vs.

Definition matching (s : Statement) (tbl : list Row) : list (nat * Row) :=
  List.filter (λ ir, forallb (λ c, holds c ir.2) (whereclause s)) (imap pair tbl).

Definition fetch (s : Statement) (tbl : list Row) : Result :=
  match projection s with
  | Entities => (λ ir, [Entity ir.1 ir.2]) <$> matching s tbl
  | Max column => [[Scalar (sql_max ((λ ir, column ir.2) <$> matching s tbl))]]
  end.

(** *** Session methods *)

Definition S (A : Type) : Type := Session → result A * Session.

Definition ret {A : Type} (a : A) : S A := λ s, (Ok a, s).

Definition raise {A : Type} (e : exn) : S A := λ s, (Raise e, s).

Definition lift {A : Type} (r : result A) : S A := λ s, (r, s).

Definition bind {A B : Type} (m : S A) (k : A → S B) : S B :=
  λ s,
    match m s with
    | (Ok a, s1) => k a s1
    | (Raise e, s1) => (Raise e, s1)
    end.

(** [session.execute(statement)]; a transaction begins by itself. *)
Definition execute (st : Statement) : S Result :=
  λ s, (Ok (fetch st (table s)), mkSession (table s) true).

(** [session.add(item)] *)
Definition add (item : Row) : S unit :=
  λ s, (Ok tt, mkSession (table s ++ [item]) true).

(** Assigning to the attributes of a loaded object changes the row it
    was loaded from. *)
Definition mutate (index : nat) (f : Row → Row) : S unit :=
  λ s, (Ok tt, mkSession (alter f index (table s)) (in_transaction s)).

(** [with session.begin(): body]: refused when a transaction has begun
    already; commits when the body returns, rolls back and re-raises when
    it raises. *)
Definition with_begin {A : Type} (body : S A) : S A :=
  λ s,
    if in_transaction s
    then (Raise (InvalidRequestError "A transaction is already begun on this Session."), s)
    else
      match body (mkSession (table s) true) with
      | (Ok a, s1) => (Ok a, mkSession (table s1) false)
      | (Raise e, _) => (Raise e, mkSession (table s) false)
      end.

(** *** Result methods *)

(** [result.scalars()]: the first column of every row. *)
Definition scalars (res : Result) : list Cell :=
  omap head res.

(** [result.scalar()]: the first column of the first row, or [None]. *)
Definition scalar (res : Result) : option Cell :=
  match res with
  | [] => None
  | r :: _ => head r
  end.

(** [result.one_or_none()] *)
Definition one_or_none (res : Result) : result (option (list Cell)) :=
  match res with
  | [] => Ok None
  | [r] => Ok (Some r)
  | _ :: _ :: _ => Raise MultipleResultsFound
  end.

(** [row[0]] *)
Definition getitem0 (row : option (list Cell)) : result Cell :=
  match row with
  | None => Raise (TypeError "'NoneType' object is not subscriptable")
  | Some [] => Raise IndexError
  | Some (c :: _) => Ok c
  end.

(** The mapped objects of a list of cells. *)
Definition entities (cells : list Cell) : list Row :=
  omap (λ c, match c with Entity _ r => Some r | Scalar _ => None end) cells.

(** *** Coroutines

    An [async] method either is done or waits for the session to execute
    a statement and goes on with the result. *)
Inductive Coro (A : Type) : Type :=
| Done (r : result A)
| AwaitExecute (st : Statement) (k : Result → Coro A).

Arguments Done {A} r.
Arguments AwaitExecute {A} st k.

(** Running a coroutine to completion on an asynchronous session. *)
Fixpoint run_until_complete {A : Type} (c : Coro A) (s : Session) : result A * Session :=
  match c with
  | Done r => (r, s)
  | AwaitExecute st k =>
      match execute st s with
      | (Ok res, s1) => run_until_complete (k res) s1
      | (Raise e, s1) => (Raise e, s1)
      end
  end.

End Session.

Arguments Session Row : clear implicits.
Arguments Cell Row : clear implicits.
Arguments Criterion Row : clear implicits.
Arguments Statement Row : clear implicits.
Arguments S Row A : clear implicits.
Arguments Coro Row A : clear implicits.
Arguments Done {Row A} r.
Arguments AwaitExecute {Row A} st k.

Notation "'let!' x ':=' m 'in' k" := (bind m (λ x, k))
  (at level 10, x name, m at level 100, k at level 200).

End Orm.

(** ** tables/base/baseupdatetable.py *)

Module BaseUpdateTable.
Import Py Orm.

Abbreviation Entry := (gmap string Value).

Section Row.
(** The columns a row inherits from [BaseTable], with the parent's
    [as_dict] and [as_entry]; the class builds on them without looking
    inside. *)
Context {Base : Type}.
Variable base_as_dict : Base → Entry.
Variable base_as_entry : Base → Entry.

(** [update_id = mapped_column(BigInteger, default=0)]: a nullable
    integer column next to the inherited ones. *)
Record Row : Type := mkRow
  { base : Base;
    update_id : Value }.

(** *** Class methods *)

Definition get_last_update_id : S Row (Cell Row) :=
  let! result := execute (select_max update_id) in
  let! row := lift (one_or_none result) in
  lift (getitem0 row).

(** [[r.as_entry() for r in cells]] for the row method [as_entry]. *)
Fixpoint as_entries_of (as_entry : Row → Entry) (cells : list (Cell Row))
    : result (list Entry) :=
  match cells with
  | [] => Ok []
  | Entity _ r :: cells' =>
      match as_entries_of as_entry cells' with
      | Ok es => Ok (as_entry r :: es)
      | Raise e => Raise e
      end
  | Scalar _ :: _ => Raise (AttributeError "object has no attribute 'as_entry'")
  end.

(** *** Instance methods *)

Definition update (dict_ : option Entry) (kwargs : Entry) (self : Row) : Row :=
  let dict_ := kwargs ∪ default ∅ dict_ in
  match default VNone (dict_ !! "update_id") with
  | VNone => self
  | VInt z => mkRow (base self) (VInt z)
  end.

Definition as_dict (self : Row) : Entry :=
  <["update_id" := update_id self]> (base_as_dict (base self)).

Definition as_entry (self : Row) : Entry :=
  <["update_id" := update_id self]> (base_as_entry (base self)).

(** *** Class methods, continued *)

Definition get_from_update (update_id_ : Z) (inclusive as_entries : bool)
    : S Row (list (list (Cell Row)) + list Entry) :=
  let update_statement := select_entities in
  let update_statement :=
    if inclusive
    then where_ (Ge update_id update_id_) update_statement
    else where_ (Gt update_id update_id_) update_statement in
  let! results := execute update_statement in
  if as_entries
  then let! es := lift (as_entries_of as_entry (scalars results)) in ret (inr es)
  else ret (inl results).

Definition get_last_update_id_async : Coro Row (Cell Row) :=
  AwaitExecute (select_max update_id)
    (λ result,
       Done match one_or_none result with
            | Ok row => getitem0 row
            | Raise e => Raise e
            end).

Definition get_from_update_async (update_id_ : Z) (inclusive as_entries : bool)
    : Coro Row (list (list (Cell Row)) + list Entry) :=
  let update_statement := select_entities in
  let update_statement :=
    if inclusive
    then where_ (Ge update_id update_id_) update_statement
    else where_ (Gt update_id update_id_) update_statement in
  AwaitExecute update_statement
    (λ results,
       Done (if as_entries
             then match as_entries_of as_entry (scalars results) with
                  | Ok es => Ok (inr es)
                  | Raise e => Raise e
                  end
             else Ok (inl results))).

End Row.

Arguments Row Base : clear implicits.

End BaseUpdateTable.

(** ** tables/base/basesingletontable.py *)

Module BaseSingletonTable.
Import Py Orm.

Abbreviation Entry := (gmap string Value).

(** What the class methods reach through [cls] and through the row they
    load: [cls.insert(session=session, entry=entry, as_entry=True,
    begin=False, **kwargs)], [row.update(entry, **kwargs)] and
    [row.as_entry()]. *)
Record TableClass (Row : Type) : Type := mkTableClass
  { insert : option Entry → Entry → S Row unit;
    update : option Entry → Entry → Row → Row;
    as_entry : Row → Entry }.

Arguments insert {Row} cls entry kwargs : rename.
Arguments update {Row} cls dict_ kwargs self : rename.
Arguments as_entry {Row} cls self : rename.

Section Methods.
Context {Row : Type} (cls : TableClass Row).

(** [result.update(entry, **kwargs)] on what [scalar()] returned. *)
Definition call_update (result : option (Cell Row)) (entry : option Entry)
    (kwargs : Entry) : S Row unit :=
  match result with
  | None => raise (AttributeError "'NoneType' object has no attribute 'update'")
  | Some (Entity index _) => mutate index (update cls entry kwargs)
  | Some (Scalar _) => raise (AttributeError "object has no attribute 'update'")
  end.

(** The keywords the call of [insert] spells out. *)
Definition insert_keywords : list string :=
  ["session"; "entry"; "as_entry"; "begin"].

(** [cls.insert(session=session, entry=entry, as_entry=True, begin=False,
    **kwargs)]; Python refuses the call when [kwargs] holds one of the
    keywords again. *)
Definition call_insert (entry : option Entry) (kwargs : Entry) : S Row unit :=
  match List.find (λ k, negb (is_None (kwargs !! k))) insert_keywords with
  | Some k => raise (TypeError ("got multiple values for keyword argument " +:+ k))
  | None => insert cls entry kwargs
  end.

Definition create_entry (entry : option Entry) (begin : bool) (kwargs : Entry)
    : S Row unit :=
  if begin then
    with_begin
      (let! result := execute select_entities in
       let result := scalar result in
       if is_None result
       then call_insert entry kwargs
       else call_update result entry kwargs)
  else
    let! result := execute select_entities in
    let result := scalar result in
    if is_None result
    then call_insert entry kwargs
    else call_update result entry kwargs.

Definition get_entry (as_entry_ : bool) : S Row (Entry + Row) :=
  let! result := execute select_entities in
  match scalar result with
  | Some (Entity _ row) => ret (if as_entry_ then inl (as_entry cls row) else inr row)
  | Some (Scalar _) =>
      if as_entry_ then raise (AttributeError "object has no attribute 'as_entry'")
      else raise (TypeError "not a mapped object")
  | None => ret (inl ∅)
  end.

Definition set_entry (entry : option Entry) (begin : bool) (kwargs : Entry)
    : S Row unit :=
  if begin then
    with_begin
      (let! result := execute select_entities in
       call_update (scalar result) entry kwargs)
  else
    let! result := execute select_entities in
    call_update (scalar result) entry kwargs.

End Methods.

End BaseSingletonTable.

(** ** tables/base/basemetainformationtable.py *)

Module BaseMetaInformationTable.
Import Py Orm.

Section Methods.
Context {Row : Type} (cls : BaseSingletonTable.TableClass Row).

Definition create_information (entry : option (gmap string Value)) (begin : bool)
    (kwargs : gmap string Value) : S Row unit :=
  BaseSingletonTable.create_entry cls entry begin kwargs.

Definition get_information (as_entry : bool) : S Row (gmap string Value + Row) :=
  BaseSingletonTable.get_entry cls as_entry.

Definition set_information (entry : option (gmap string Value)) (begin : bool)
    (kwargs : gmap string Value) : S Row unit :=
  BaseSingletonTable.set_entry cls entry begin kwargs.

End Methods.

End BaseMetaInformationTable.

(** ** tables/base/basetable.py *)

Module BaseTable.
Import Py Orm.

(** Modelled from the spec: [basetable.py] is not among the sources; a row
    is "an entity with a unique identifier, optional payload columns" that
    converts to "a plain key-value mapping", so a row is the mapping of
    its columns. *)
Record Row : Type := mkRow
  { columns : gmap string Value }.

(** Modelled from the spec: [BaseTable.update] is absent; it "merges
    partial_mapping and overrides (overrides win), applies merged fields
    to the row's mutable columns". *)
Definition update (dict_ : option (gmap string Value)) (kwargs : gmap string Value)
    (self : Row) : Row :=
  let dict_ := kwargs ∪ default ∅ dict_ in
  mkRow (dict_ ∪ columns self).

(** Modelled from the spec: [BaseTable.insert] is absent; called by
    [create_entry] when no row exists, it "inserts a new row with those
    fields", the fields being "entry and kwargs" merged. *)
Definition insert (entry : option (gmap string Value)) (kwargs : gmap string Value)
    : S Row unit :=
  add (mkRow (kwargs ∪ default ∅ entry)).

(** Modelled from the spec: [BaseTable.as_entry] is absent; it is the
    "external-facing projection of the row". *)
Definition as_entry (self : Row) : gmap string Value := columns self.

(** [BaseTable] as the class the singleton methods are called on. *)
Definition cls : BaseSingletonTable.TableClass Row :=
  BaseSingletonTable.mkTableClass Row insert update as_entry.

End BaseTable.

(** ** tables/base/basesingletontable.py, the asynchronous methods *)

Module BaseSingletonTableAsync.
Import Py Orm BaseSingletonTable.

Section Tasks.
Context {Row : Type}.

(** A coroutine on an asynchronous session: done, waiting for a
    statement to be executed, running to its end without waiting, or
    inside [async with session.begin()]. *)
Inductive Task (A : Type) : Type :=
| Return (r : result A)
| Await (st : Statement Row) (k : list (list (Cell Row)) → Task A)
| Sync (m : S Row A)
| Begin (body : Task A).

Arguments Return {A} r.
Arguments Await {A} st k.
Arguments Sync {A} m.
Arguments Begin {A} body.

(** Running a task to completion on a session. *)
Fixpoint run_task {A : Type} (c : Task A) : S Row A :=
  match c with
  | Return r => lift r
  | Await st k =>
      λ s, match execute st s with
           | (Ok res, s1) => run_task (k res) s1
           | (Raise e, s1) => (Raise e, s1)
           end
  | Sync m => m
  | Begin body => with_begin (run_task body)
  end.

(** A table class with the coroutine [cls.insert_async(session=session,
    entry=entry, as_entry=True, begin=False, **kwargs)] next to the
    synchronous methods. *)
Record AsyncTableClass : Type := mkAsyncTableClass
  { sync_class : TableClass Row;
    insert_async : option Entry → Entry → Task unit }.

Variable cls : AsyncTableClass.

(** The call of [insert_async] spells out the same keywords as the call
    of [insert]. *)
Definition call_insert_async (entry : option Entry) (kwargs : Entry) : Task unit :=
  match List.find (λ k, negb (is_None (kwargs !! k))) insert_keywords with
  | Some k => Return (Raise (TypeError ("got multiple values for keyword argument " +:+ k)))
  | None => insert_async cls entry kwargs
  end.

Definition create_entry_async (entry : option Entry) (begin : bool) (kwargs : Entry)
    : Task unit :=
  let statement := select_entities in
  if begin then
    Begin
      (Await statement
         (λ result,
            let result := scalar result in
            if is_None result
            then call_insert_async entry kwargs
            else Sync (call_update (sync_class cls) result entry kwargs)))
  else
    Await statement
      (λ result,
         let result := scalar result in
         if is_None result
         then call_insert_async entry kwargs
         else Sync (call_update (sync_class cls) result entry kwargs)).

Definition get_entry_async (as_entry_ : bool) : Task (Entry + Row) :=
  Await select_entities
    (λ result,
       match scalar result with
       | Some (Entity _ row) =>
           Return (Ok (if as_entry_ then inl (as_entry (sync_class cls) row) else inr row))
       | Some (Scalar _) =>
           if as_entry_
           then Return (Raise (AttributeError "object has no attribute 'as_entry'"))
           else Return (Raise (TypeError "not a mapped object"))
       | None => Return (Ok (inl ∅))
       end).

Definition set_entry_async (entry : option Entry) (begin : bool) (kwargs : Entry)
    : Task unit :=
  let statement := select_entities in
  if begin then
    Begin
      (Await statement
         (λ result, Sync (call_update (sync_class cls) (scalar result) entry kwargs)))
  else
    Await statement
      (λ result, Sync (call_update (sync_class cls) (scalar result) entry kwargs)).

(** basemetainformationtable.py: the asynchronous methods forward to
    the ones above. *)
Definition create_information_async (entry : option Entry) (begin : bool)
    (kwargs : Entry) : Task unit :=
  create_entry_async entry begin kwargs.

Definition get_information_async (as_entry : bool) : Task (Entry + Row) :=
  get_entry_async as_entry.

Definition set_information_async (entry : option Entry) (begin : bool)
    (kwargs : Entry) : Task unit :=
  set_entry_async entry begin kwargs.

End Tasks.

Arguments Task Row A : clear implicits.
Arguments AsyncTableClass Row : clear implicits.
Arguments Return {Row A} r.
Arguments Await {Row A} st k.
Arguments Sync {Row A} m.
Arguments Begin {Row A} body.

(** [BaseTable] with an [insert_async] that does what [insert] does. *)
Definition base_table : AsyncTableClass BaseTable.Row :=
  mkAsyncTableClass BaseTable.cls (λ entry kwargs, Sync (BaseTable.insert entry kwargs)).

(** *** Sequences of calls on one session *)

Inductive call : Type :=
| Call_create_entry (entry : option Entry) (begin : bool) (kwargs : Entry)
| Call_set_entry (entry : option Entry) (begin : bool) (kwargs : Entry)
| Call_get_entry (as_entry : bool).

(** The session after a call, whether it returned or raised. *)
Definition perform {Row : Type} (cls : TableClass Row) (c : call)
    (s : Session Row) : Session Row :=
  match c with
  | Call_create_entry entry begin kwargs => (create_entry cls entry begin kwargs s).2
  | Call_set_entry entry begin kwargs => (set_entry cls entry begin kwargs s).2
  | Call_get_entry flag => (get_entry cls flag s).2
  end.

Definition run {Row : Type} (cls : TableClass Row) (calls : list call)
    (s : Session Row) : Session Row :=
  foldl (λ s c, perform cls c s) s calls.

End BaseSingletonTableAsync.

(** ** database/components/basedatabasecomponent.py *)

Module BaseDatabaseComponent.
Import Py.

(** The attribute [_composite]: [None] until a composite is set, then a
    weak reference, which yields the composite while it is alive and
    [None] once it is gone. *)
Inductive Composite : Type :=
| unset
| weakref (referent : option DatabaseFile.t).

(** The property [tables]: [self._composite().tables], with a
    [TypeError] turned into [None]. *)
Definition tables (self : Composite) : result (option (gmap string string)) :=
  match self with
  | unset => Ok None
  | weakref None => Raise (AttributeError "'NoneType' object has no attribute 'tables'")
  | weakref (Some composite) => Ok (Some (DatabaseFile.tables composite))
  end.

(** A method maps the component to its result, the component afterwards
    (the composite may have changed) and the effects of the composite. *)
Definition create_session (args : list Value) (kwargs : gmap string Value)
    (self : Composite)
    : result DatabaseFile.Session * Composite * list DatabaseFile.effect :=
  match self with
  | unset => (Raise (TypeError "'NoneType' object is not callable"), self, [])
  | weakref None =>
      (Raise (AttributeError "'NoneType' object has no attribute 'create_session'"),
       self, [])
  | weakref (Some composite) =>
      match DatabaseFile.create_session args kwargs composite with
      | (r, composite', out) => (r, weakref (Some composite'), out)
      end
  end.

Definition create_async_session (args : list Value) (kwargs : gmap string Value)
    (self : Composite)
    : result DatabaseFile.AsyncSession * Composite * list DatabaseFile.effect :=
  match self with
  | unset => (Raise (TypeError "'NoneType' object is not callable"), self, [])
  | weakref None =>
      (Raise (AttributeError "'NoneType' object has no attribute 'create_async_session'"),
       self, [])
  | weakref (Some composite) =>
      match DatabaseFile.create_async_session args kwargs composite with
      | (r, composite', out) => (r, weakref (Some composite'), out)
      end
  end.

(** Why a component cannot get a session from its composite, if it
    cannot. *)
Definition no_session (self : Composite) : option exn :=
  match self with
  | unset => Some (TypeError "'NoneType' object is not callable")
  | weakref None =>
      Some (AttributeError "'NoneType' object has no attribute 'create_session'")
  | weakref (Some composite) =>
      if DatabaseFile.is_open composite then None else Some (IOError "File not open")
  end.

End BaseDatabaseComponent.

(** ** database/components/baseupdatetablecomponent.py *)

Module BaseUpdateTableComponent.
Import Py BaseDatabaseComponent.

Section Component.
Context {Base : Type}.
Variable base_as_entry : Base → gmap string Value.

(** The property [table] comes from a parent class whose file is absent;
    it yields the table class or raises. *)
Variable table : Composite → result unit.

(** The session a session object of the file handle opens on the table,
    and what a coroutine run on an asynchronous one gives. *)
Variable connect : DatabaseFile.Session → Orm.Session (BaseUpdateTable.Row Base).
Variable connect_async :
  DatabaseFile.AsyncSession → Orm.Session (BaseUpdateTable.Row Base).

Abbreviation TableSession := (Orm.Session (BaseUpdateTable.Row Base)).
Abbreviation Rows := (list (list (Orm.Cell (BaseUpdateTable.Row Base)))).

(** What a method does besides returning: the effects of the composite
    and the sessions it closes on leaving a [with] block. *)
Inductive event : Type :=
| Composite_effect (e : DatabaseFile.effect)
| Close (session : DatabaseFile.Session)
| Close_async (session : DatabaseFile.AsyncSession).

(** What a method leaves behind: its result, the caller's session if one
    was passed, the component and the events. *)
Record Outcome (A : Type) : Type := mkOutcome
  { returned : result A;
    session_after : option TableSession;
    self_after : Composite;
    events : list event }.

Arguments mkOutcome {A} _ _ _ _.
Arguments returned {A} _.
Arguments session_after {A} _.
Arguments self_after {A} _.
Arguments events {A} _.

(** [self.table.method(session, ...)] on a session the caller passed. *)
Definition on_session {A : Type} (method : Orm.S (BaseUpdateTable.Row Base) A)
    (session : TableSession) (self : Composite) : Outcome A :=
  match table self with
  | Raise e => mkOutcome (Raise e) (Some session) self []
  | Ok _ =>
      match method session with
      | (r, session') => mkOutcome r (Some session') self []
      end
  end.

(** [with self.create_session() as session: return
    self.table.method(session, ...)] *)
Definition in_new_session {A : Type} (method : Orm.S (BaseUpdateTable.Row Base) A)
    (self : Composite) : Outcome A :=
  match create_session [] ∅ self with
  | (Raise e, self', out) => mkOutcome (Raise e) None self' (Composite_effect <$> out)
  | (Ok session, self', out) =>
      match table self' with
      | Raise e =>
          mkOutcome (Raise e) None self' ((Composite_effect <$> out) ++ [Close session])
      | Ok _ =>
          mkOutcome (method (connect session)).1 None self'
                    ((Composite_effect <$> out) ++ [Close session])
      end
  end.

(** [async with self.create_async_session() as session: return await
    self.table.method_async(session, ...)] *)
Definition in_new_async_session {A : Type}
    (method : Orm.Coro (BaseUpdateTable.Row Base) A) (self : Composite) : Outcome A :=
  match create_async_session [] ∅ self with
  | (Raise e, self', out) => mkOutcome (Raise e) None self' (Composite_effect <$> out)
  | (Ok session, self', out) =>
      match table self' with
      | Raise e =>
          mkOutcome (Raise e) None self'
                    ((Composite_effect <$> out) ++ [Close_async session])
      | Ok _ =>
          mkOutcome (Orm.run_until_complete method (connect_async session)).1 None self'
                    ((Composite_effect <$> out) ++ [Close_async session])
      end
  end.

Definition get_last_update_id (session : option TableSession) (self : Composite)
    : Outcome (Orm.Cell (BaseUpdateTable.Row Base)) :=
  match session with
  | Some session => on_session BaseUpdateTable.get_last_update_id session self
  | None => in_new_session BaseUpdateTable.get_last_update_id self
  end.

Definition get_last_update_id_async (session : option TableSession) (self : Composite)
    : Outcome (Orm.Cell (BaseUpdateTable.Row Base)) :=
  match session with
  | Some session =>
      on_session (Orm.run_until_complete BaseUpdateTable.get_last_update_id_async)
                 session self
  | None => in_new_async_session BaseUpdateTable.get_last_update_id_async self
  end.

Definition get_from_update (update_id : Z) (session : option TableSession)
    (inclusive as_entries : bool) (self : Composite)
    : Outcome (Rows + list (gmap string Value)) :=
  match session with
  | Some session =>
      on_session
        (BaseUpdateTable.get_from_update base_as_entry update_id inclusive as_entries)
        session self
  | None =>
      in_new_session
        (BaseUpdateTable.get_from_update base_as_entry update_id inclusive as_entries)
        self
  end.

Definition get_from_update_async (update_id : Z) (session : option TableSession)
    (inclusive as_entries : bool) (self : Composite)
    : Outcome (Rows + list (gmap string Value)) :=
  match session with
  | Some session =>
      on_session
        (Orm.run_until_complete
           (BaseUpdateTable.get_from_update_async base_as_entry update_id inclusive
              as_entries))
        session self
  | None =>
      in_new_async_session
        (BaseUpdateTable.get_from_update_async base_as_entry update_id inclusive
           as_entries)
        self
  end.

End Component.

Arguments Outcome Base A : clear implicits.
Arguments mkOutcome {Base A} _ _ _ _.
Arguments returned {Base A} _.
Arguments session_after {Base A} _.
Arguments self_after {Base A} _.
Arguments events {Base A} _.

End BaseUpdateTableComponent.

(** * Properties *)

(** ** The database file handle *)

Module DatabaseFileFacts.
Import Py DatabaseFile.

(** In a healthy environment the methods behave as in the quiet one. *)
Ltac calm H :=
  destruct H as (Hloop & Hce & Hcae);
  repeat (progress (simpl; rewrite ?Hloop, ?Hce, ?Hcae)); reflexivity.

Lemma bind_ext {A B : Type} (m m' : M A) (k k' : A → M B) (self : t) :
  m self = m' self → (∀ a self', k a self' = k' a self') →
  bind m k self = bind m' k' self.
Proof.
  intros Hm Hk. unfold bind. rewrite Hm.
  destruct (m' self) as [[[a|e] self1] out1]; [| done]. by rewrite Hk.
Qed.

Lemma create_engine_healthy (env : Env) (kwargs : Kwargs) (self : t) :
  healthy env → create_engine env kwargs self = create_engine quiet kwargs self.
Proof.
  intros H. destruct self as [[pa|] e a smk sm asmk asm sch tb];
    unfold create_engine, bind, get; calm H.
Qed.

Lemma close_healthy (env : Env) (self : t) :
  healthy env → close env self = close quiet self.
Proof.
  intros H. destruct self as [pa [e|] [a|] smk sm asmk asm sch tb];
    unfold close, bind, get; calm H.
Qed.

Lemma open_healthy (env : Env) (kwargs : Kwargs) (self : t) :
  healthy env → open env kwargs self = open quiet kwargs self.
Proof.
  intros H. unfold open. apply bind_ext; [by apply create_engine_healthy | done].
Qed.

Lemma create_file_healthy (env : Env) (path : option Path) (kwargs : Kwargs) (self : t) :
  healthy env → create_file env path kwargs self = create_file quiet path kwargs self.
Proof.
  intros H. destruct self as [[pa|] [e|] a smk sm asmk asm [s|] tb], path as [p|];
    unfold create_file, create_engine, bind, get; calm H.
Qed.





Lemma unpickle_healthy (env : Env) (state : gmap string Attr) :
  healthy env → unpickle env state = unpickle quiet state.
Proof.
  intros H. unfold unpickle, __setstate__.
  destruct (state !! "is_open") as [was_open|]; [| done].
  apply bind_ext; [done | intros ? ?].
  destruct (truthy was_open); [by apply open_healthy | done].
Qed.

Lemma quiet_healthy : healthy quiet.
Proof. by repeat split. Qed.

Example db_new_closed : is_open db_new = false.
Proof. reflexivity. Qed.

Example db_open_is_open : is_open db_open = true.
Proof. reflexivity. Qed.

Example db_created_effects :
  effects (create_file quiet None ∅ db_new)
  = [CreateAll "Base" (create_engine_ "sqlite:///db.sqlite" ∅)].
Proof. reflexivity. Qed.

(** *** Engine and factories *)



Lemma open_with_path (kwargs : Kwargs) (self : t) (p : Path) :
  _path self = Some p →
  let e := create_engine_ ("sqlite:///" +:+ p) kwargs in
  let a := create_async_engine_ ("sqlite+aiosqlite:///" +:+ p) kwargs in
  open quiet kwargs self
  = (Ok tt,
     mk (Some p) (Some e) (Some a) (session_maker_kwargs self)
        (Some (sessionmaker_ (Some e) ∅)) (async_session_maker_kwargs self)
        (Some (async_sessionmaker_ (Some a) ∅)) (schema self) (tables self),
     []).
Proof.
  intros Hp. destruct self as [pa e a smk sm asmk asm sch tb]. simpl in Hp. subst pa.
  reflexivity.
Qed.


(** *** Closing *)

Lemma close_result (self : t) :
  close quiet self
  = (Ok true,
     mk (_path self) None None (session_maker_kwargs self) None
        (async_session_maker_kwargs self) None (schema self) (tables self),
     disposals self).
Proof.
  destruct self as [pa [e|] [a|] smk sm asmk asm sch tb]; reflexivity.
Qed.

Lemma close_async_result (self : t) :
  close_async self
  = (Ok true,
     mk (_path self) None None (session_maker_kwargs self) (_session_maker self)
        (async_session_maker_kwargs self) None (schema self) (tables self),
     disposals self).
Proof.
  destruct self as [pa [e|] [a|] smk sm asmk asm sch tb]; reflexivity.
Qed.

Lemma is_open_after_open (kwargs : Kwargs) (self : t) :
  is_Some (_path self) →
  outcome (open quiet kwargs self) = Ok tt ∧ is_open (after (open quiet kwargs self)) = true.
Proof. intros [p Hp]. by rewrite (open_with_path kwargs self p Hp). Qed.

Lemma is_open_after_close (self : t) : is_open (after (close quiet self)) = false.
Proof. by rewrite close_result. Qed.

Lemma close_twice (self : t) :
  close quiet (after (close quiet self)) = (Ok true, after (close quiet self), []).
Proof. by rewrite !close_result. Qed.

Lemma close_of_new_handle (self : t) :
  _engine self = None → _async_engine self = None →
  _session_maker self = None → _async_session_maker self = None →
  close quiet self = (Ok true, self, []).
Proof.
  destruct self as [pa e a smk sm asmk asm sch tb]; simpl.
  intros -> -> -> ->. reflexivity.
Qed.

(** *** Sessions *)

Lemma dict_truthy_empty {A : Type} : dict_truthy (∅ : gmap string A) = false.
Proof. unfold dict_truthy. by rewrite map_to_list_empty. Qed.

Lemma dict_truthy_nonempty {A : Type} (d : gmap string A) :
  d ≠ ∅ → dict_truthy d = true.
Proof.
  intros Hd. unfold dict_truthy.
  rewrite bool_decide_eq_false_2; [done |].
  intros Hl. by apply Hd, map_to_list_empty_iff.
Qed.

Lemma overrides_given (args : list Value) (kwargs : Kwargs) :
  args ≠ [] ∨ kwargs ≠ ∅ → tuple_truthy args || dict_truthy kwargs = true.
Proof.
  intros [Ha | Hk].
  - destruct args; [done | reflexivity].
  - rewrite (dict_truthy_nonempty _ Hk). apply orb_true_r.
Qed.

Lemma is_open_engines (self : t) :
  is_open self = true ↔ is_Some (_engine self) ∧ is_Some (_async_engine self).
Proof.
  unfold is_open. destruct (_engine self), (_async_engine self); simpl;
    split; try done; intros [[? ?] [? ?]]; done.
Qed.

(** The guard and the three ways out of [create_session] and
    [create_async_session]: the I/O error exactly when the handle is not
    open; on an open handle a [TypeError] for any positional argument, a
    one-off session on the engine for keyword overrides alone, and
    without arguments the session of the stored factory when one is
    stored, a [TypeError] when none is. *)
Lemma create_session_guard (self : t) (args : list Value) (kwargs : Kwargs) :
  (is_open self = false →
     create_session args kwargs self = (Raise (IOError "File not open"), self, []) ∧
     create_async_session args kwargs self = (Raise (IOError "File not open"), self, []))
  ∧ (is_open self = true →
     (∀ msg, outcome (create_session args kwargs self) ≠ Raise (IOError msg)) ∧
     (∀ msg, outcome (create_async_session args kwargs self) ≠ Raise (IOError msg)) ∧
     (args ≠ [] →
        (∃ msg, create_session args kwargs self = (Raise (TypeError msg), self, [])) ∧
        (∃ msg, create_async_session args kwargs self = (Raise (TypeError msg), self, []))) ∧
     (kwargs ≠ ∅ →
        (∃ e, _engine self = Some e ∧
              create_session [] kwargs self = (Ok (Session_ (Some e) [] kwargs), self, [])) ∧
        (∃ a, _async_engine self = Some a ∧
              create_async_session [] kwargs self
              = (Ok (AsyncSession_ (Some a) [] kwargs), self, []))) ∧
     (∀ maker, _session_maker self = Some maker →
        create_session [] ∅ self = (Ok (sessionmaker_call maker), self, [])) ∧
     (∀ maker, _async_session_maker self = Some maker →
        create_async_session [] ∅ self = (Ok (async_sessionmaker_call maker), self, [])) ∧
     (_session_maker self = None →
        create_session [] ∅ self
        = (Raise (TypeError "'NoneType' object is not callable"), self, [])) ∧
     (_async_session_maker self = None →
        create_async_session [] ∅ self
        = (Raise (TypeError "'NoneType' object is not callable"), self, []))).
Proof.
  split.
  - intros Hclosed. unfold create_session, create_async_session, bind, get.
    rewrite Hclosed. simpl. done.
  - intros Hopen.
    destruct (proj1 (is_open_engines self) Hopen) as [[e He] [a Ha]].
    unfold create_session, create_async_session, bind, get, outcome,
      Session_init, AsyncSession_init.
    rewrite Hopen. simpl.
    split_and!.
    + intros msg. destruct args; simpl.
      * destruct (dict_truthy kwargs); [done |]. by destruct (_session_maker self).
      * done.
    + intros msg. destruct args; simpl.
      * destruct (dict_truthy kwargs); [done |]. by destruct (_async_session_maker self).
      * done.
    + intros Hargs. destruct args; [done |]. simpl. eauto.
    + intros Hkw. rewrite (dict_truthy_nonempty _ Hkw). simpl.
      rewrite He, Ha. split; eauto.
    + intros maker Hm. rewrite dict_truthy_empty, Hm. reflexivity.
    + intros maker Hm. rewrite dict_truthy_empty, Hm. reflexivity.
    + intros Hm. rewrite dict_truthy_empty, Hm. reflexivity.
    + intros Hm. rewrite dict_truthy_empty, Hm. reflexivity.
Qed.

(** [open] stores both factories, so the factory case is the one an
    opened handle is in. *)
Lemma open_stores_factories (kwargs : Kwargs) (self : t) (p : Path) :
  _path self = Some p →
  is_Some (_session_maker (after (open quiet kwargs self))) ∧
  is_Some (_async_session_maker (after (open quiet kwargs self))).
Proof. intros Hp. rewrite (open_with_path kwargs self p Hp). simpl. eauto. Qed.

(** C1 at a handle that [create_file] left with engines but without
    factories, and at an opened handle called with a positional
    argument: the handle is open, yet the call without arguments calls
    the missing factory and raises a [TypeError], and the call with a
    positional argument raises a [TypeError] as well, where the claim has
    a session returned. *)
Theorem create_session_after_create_file :
  is_open db_created = true ∧
  create_session [] ∅ db_created
  = (Raise (TypeError "'NoneType' object is not callable"), db_created, []) ∧
  create_async_session [] ∅ db_created
  = (Raise (TypeError "'NoneType' object is not callable"), db_created, []) ∧
  is_open db_open = true ∧
  create_session [VInt 1] ∅ db_open
  = (Raise (TypeError "Session.__init__() takes from 1 to 2 positional arguments"),
     db_open, []).
Proof. repeat split. Qed.

(** *** Creating the file *)

(** C2, as the code has it: when the engine constructors accept what
    they are given and [create_file] has a path to build the engines on
    and a schema to emit, it returns with both engines in
    place, so [is_open] is true afterwards and the factories are as they
    were; the handle is closed again by the [close] that follows, which
    is what [construct] does for [create=True]. *)
Theorem create_file_leaves_open (env : Env) (self : t) (path : option Path)
    (kwargs : Kwargs) :
  healthy env →
  paired self →
  is_Some path ∨ is_Some (_path self) →
  is_Some (schema self) →
  ∃ s e a,
    schema self = Some s ∧
    create_file env path kwargs self
    = (Ok tt,
       mk (if path is Some p then Some p else _path self) (Some e) (Some a)
          (session_maker_kwargs self) (_session_maker self)
          (async_session_maker_kwargs self) (_async_session_maker self)
          (schema self) (tables self),
       [CreateAll s e]) ∧
    is_open (after (create_file env path kwargs self)) = true ∧
    is_open (after (close env (after (create_file env path kwargs self)))) = false.
Proof.
  intros Henv. rewrite !(create_file_healthy env), (close_healthy env) by done.
  unfold paired.
  destruct self as [pa e a smk sm asmk asm sch tb]; simpl.
  intros Hpair Hpath [s ->].
  destruct path as [p|].
  - exists s, (create_engine_ ("sqlite:///" +:+ p) kwargs),
      (create_async_engine_ ("sqlite+aiosqlite:///" +:+ p) kwargs).
    destruct e, a; done.
  - destruct Hpath as [[? ?] | [p ->]]; [done |].
    destruct e as [e|], a as [a|]; try done.
    + exists s, e, a. done.
    + exists s, (create_engine_ ("sqlite:///" +:+ p) kwargs),
        (create_async_engine_ ("sqlite+aiosqlite:///" +:+ p) kwargs). done.
Qed.

Lemma create_file_leaves_open_witness :
  healthy quiet ∧ paired db_new ∧ is_Some (_path db_new) ∧ is_Some (schema db_new) ∧
  is_open (after (create_file quiet None ∅ db_new)) = true ∧
  is_open (after (close quiet (after (create_file quiet None ∅ db_new)))) = false.
Proof.
  assert (paired db_new) as Hpair by reflexivity.
  assert (is_Some (_path db_new)) as Hpath by (by eexists).
  assert (is_Some (schema db_new)) as Hschema by (by eexists).
  split_and!; [exact quiet_healthy | done | done | done | |];
    destruct (create_file_leaves_open quiet db_new None ∅ quiet_healthy Hpair
                (or_intror Hpath) Hschema)
      as (s & e & a & _ & _ & Hopen & Hclosed); done.
Defined.

(** C2 as stated fails: after [create_file] alone the handle is open. *)
Lemma create_file_alone_is_open :
  outcome (create_file quiet None ∅ db_new) = Ok tt ∧ is_open db_created = true.
Proof. split; reflexivity. Qed.

(** [construct] with [create=True] and [open_=False] closes what
    [create_file] opened. *)
Lemma construct_create_closes :
  is_open (after (__init__ quiet (Some "db.sqlite") (Some "Base") None false true true ∅)) = false.
Proof. reflexivity. Qed.

(** *** Closing, continued *)

Lemma close_async_session_maker (self : t) :
  _session_maker (after (close quiet self)) = None ∧
  _session_maker (after (close_async self)) = _session_maker self.
Proof. by rewrite close_result, close_async_result. Qed.

(** C6 at an opened handle: [close] clears both factories, while
    [close_async] disposes both engines and clears the asynchronous
    factory only; the synchronous factory stays, bound to the engine that
    was just disposed. *)
Theorem close_async_keeps_session_maker :
  let e := create_engine_ "sqlite:///db.sqlite" ∅ in
  let a := create_async_engine_ "sqlite+aiosqlite:///db.sqlite" ∅ in
  _session_maker db_open = Some (sessionmaker_ (Some e) ∅) ∧
  close quiet db_open
  = (Ok true, mk (Some "db.sqlite") None None ∅ None ∅ None (Some "Base") ∅,
     [Dispose e; DisposeAsync a]) ∧
  close_async db_open
  = (Ok true,
     mk (Some "db.sqlite") None None ∅ (Some (sessionmaker_ (Some e) ∅)) ∅ None
        (Some "Base") ∅,
     [Dispose e; DisposeAsync a]).
Proof. repeat split. Qed.

(** *** The two engines go together *)














Example stale_factory_after_close_async :
  let self := run quiet [Call_construct (Some "db.sqlite") (Some "Base") None false true ∅;
                   Call_open ∅; Call_close_async; Call_create_engine ∅] in
  is_open self = true ∧ _session_maker self ≠ None ∧ _async_session_maker self = None.
Proof. repeat split; done. Qed.

(** *** Pickling *)

Lemma getstate_entries (self : t) :
  __getstate__ self
  = list_to_map
      [ ("is_open", ABool (is_open self));
        ("_path", attr APath (_path self));
        ("session_maker_kwargs", AKwargs (session_maker_kwargs self));
        ("async_session_maker_kwargs", AKwargs (async_session_maker_kwargs self));
        ("schema", attr ASchema (schema self));
        ("tables", ATables (tables self)) ].
Proof. reflexivity. Qed.


Lemma setstate_of_getstate (self : t) :
  object_setstate (delete "is_open" (__getstate__ self)) blank
  = mk (_path self) None None (session_maker_kwargs self) None
       (async_session_maker_kwargs self) None (schema self) (tables self).
Proof.
  destruct self as [[pa|] e a smk sm asmk asm [s|] tb]; reflexivity.
Qed.

Lemma bind_modify {B : Type} (f : t → t) (k : unit → M B) (self : t) :
  bind (modify f) k self = k tt (f self).
Proof. unfold bind, modify. by destruct (k tt (f self)) as [[r s2] o2]. Qed.





Example pickle_closed_example :
  unpickle quiet (__getstate__ db_new) = (Ok tt, db_new, []).
Proof. reflexivity. Qed.

Lemma perform_has_path (c : call) (self : t) :
  c ≠ Call_set_path None → has_path self → has_path (perform quiet c self).
Proof.
  unfold has_path. intros Hc.
  destruct c as [p s ts o cr kw | v | p kw | p kw | kw | | | kw | kw | kw]; simpl.
  - destruct self as [[pa|] [e|] [a|] smk sm asmk asm [sc|] tb],
      p as [p|], s as [s|], ts as [ts|], o, cr; simpl; done.
  - destruct v; [| done]. destruct self as [pa [e|] a smk sm asmk asm sc tb]; simpl; done.
  - destruct self as [[pa|] [e|] [a|] smk sm asmk asm [sc|] tb], p as [p|]; simpl; done.
  - destruct self as [[pa|] [e|] [a|] smk sm asmk asm [sc|] tb], p as [p|]; simpl; done.
  - destruct self as [[pa|] [e|] [a|] smk sm asmk asm sc tb]; simpl; done.
  - by rewrite close_result.
  - by rewrite close_async_result.
  - destruct self as [[pa|] [e|] [a|] smk sm asmk asm sc tb]; simpl; done.
  - by destruct self.
  - by destruct self.
Qed.

Lemma engine_has_path (calls : list call) :
  (∀ c, c ∈ calls → c ≠ Call_set_path None) →
  is_open (run quiet calls) = true → is_Some (_path (run quiet calls)).
Proof.
  intros Hcalls.
  enough (has_path (run quiet calls)) as H.
  { intros [[e He] _]%is_open_engines. unfold has_path in H. rewrite He in H.
    simpl in H. by destruct (_path (run quiet calls)). }
  unfold run.
  assert (has_path blank) as Hblank by reflexivity.
  revert Hcalls Hblank. generalize blank.
  induction calls as [|c calls IH]; intros self Hcalls Hself; simpl; [done |].
  apply IH.
  - intros c' Hc'. apply Hcalls. by apply elem_of_cons; right.
  - apply perform_has_path; [| done]. apply Hcalls, elem_of_cons. by left.
Qed.

End DatabaseFileFacts.

(** ** The session *)

Module OrmFacts.
Import Py Orm.

Section Session.
Context {Row : Type}.
Implicit Types (tbl : list Row) (s : Session Row) (st : Statement Row).

Lemma scalars_entities (l : list (nat * Row)) :
  scalars ((λ ir, [Entity ir.1 ir.2]) <$> l) = (λ ir, Entity ir.1 ir.2) <$> l.
Proof. unfold scalars. induction l as [|ir l IH]; [done |]. csimpl. by f_equal. Qed.

Lemma entities_of_cells (l : list (nat * Row)) :
  entities ((λ ir, Entity ir.1 ir.2) <$> l) = snd <$> l.
Proof. unfold entities. induction l as [|ir l IH]; [done |]. csimpl. by f_equal. Qed.

Lemma filter_indexed (f : Row → bool) (h : nat → Row → nat * Row) tbl :
  (∀ i r, (h i r).2 = r) →
  snd <$> List.filter (λ ir, f ir.2) (imap h tbl) = List.filter f tbl.
Proof.
  revert h. induction tbl as [|r tbl IH]; intros h Hh; [done |].
  simpl. rewrite Hh. destruct (f r); simpl.
  - rewrite Hh. f_equal. apply IH. intros i r'. apply Hh.
  - apply IH. intros i r'. apply Hh.
Qed.

(** The rows a statement with one criterion selects. *)
Lemma matching_where st (c : Criterion Row) tbl :
  whereclause st = [c] →
  snd <$> matching st tbl = List.filter (holds c) tbl.
Proof.
  intros Hc. unfold matching. rewrite Hc. simpl.
  rewrite <- (filter_indexed (holds c) pair tbl) by done.
  f_equal. apply filter_ext. intros ir. apply andb_true_r.
Qed.

(** Without a criterion a statement selects every row. *)
Lemma matching_all st tbl :
  whereclause st = [] → snd <$> matching st tbl = tbl.
Proof.
  intros Hc. unfold matching. rewrite Hc. simpl.
  rewrite (filter_indexed (λ _, true) pair tbl) by done.
  induction tbl as [|r tbl IH]; [done |]. simpl. by rewrite IH.
Qed.

Lemma fetch_max (column : Row → Value) tbl :
  fetch (select_max column) tbl = [[Scalar (sql_max (column <$> tbl))]].
Proof.
  unfold fetch. simpl. do 3 f_equal.
  rewrite <- (matching_all (select_max column) tbl) at 2 by done.
  by rewrite <- list_fmap_compose.
Qed.

(** Every selected object is tied to the row it shows. *)
Lemma matching_lookup st tbl (i : nat) (r : Row) :
  (i, r) ∈ matching st tbl → tbl !! i = Some r.
Proof.
  unfold matching. intros H%list_elem_of_In%filter_In. destruct H as [H _].
  apply list_elem_of_In, elem_of_lookup_imap in H as (j & r' & Heq & Hj).
  by injection Heq as -> ->.
Qed.

Lemma scalar_select_entities tbl :
  scalar (fetch select_entities tbl)
  = match tbl with [] => None | r :: _ => Some (Entity 0 r) end.
Proof. by destruct tbl. Qed.

(** SQL [max] *)

Lemma sql_max_None (vs : list Value) :
  sql_max vs = VNone ↔ ∀ v, v ∈ vs → v = VNone.
Proof.
  induction vs as [|v vs IH]; simpl.
  - split; [| done]. intros _ v H. by apply elem_of_nil in H.
  - split.
    + intros H v' Hin. apply elem_of_cons in Hin as [Heq | Hin].
      * subst v'. destruct v as [|z]; [done |]. simpl in H. by destruct (sql_max vs).
      * apply IH; [| done]. destruct v as [|z]; [done |]. simpl in H.
        by destruct (sql_max vs).
    + intros H. rewrite (H v) by (apply elem_of_cons; by left). simpl.
      apply IH. intros v' Hin. apply H, elem_of_cons. by right.
Qed.

Lemma sql_max_upper (vs : list Value) (m z : Z) :
  sql_max vs = VInt m → VInt z ∈ vs → (z ≤ m)%Z.
Proof.
  revert m. induction vs as [|v vs IH]; intros m Hm Hin.
  - by apply elem_of_nil in Hin.
  - simpl in Hm. apply elem_of_cons in Hin as [Heq | Hin].
    + subst v. simpl in Hm. destruct (sql_max vs); injection Hm as <-; lia.
    + destruct v as [|z']; simpl in Hm.
      * by apply IH.
      * destruct (sql_max vs) as [|a] eqn:Ha.
        -- by pose proof (proj1 (sql_max_None vs) Ha _ Hin).
        -- injection Hm as <-. specialize (IH a eq_refl Hin). lia.
Qed.

Lemma sql_max_attained (vs : list Value) (m : Z) :
  sql_max vs = VInt m → VInt m ∈ vs.
Proof.
  revert m. induction vs as [|v vs IH]; intros m Hm; [done |].
  simpl in Hm. destruct v as [|z]; simpl in Hm.
  - apply elem_of_cons. right. by apply IH.
  - destruct (sql_max vs) as [|a] eqn:Ha.
    + injection Hm as <-. apply elem_of_cons. by left.
    + injection Hm as <-. apply elem_of_cons.
      destruct (Z.max_spec z a) as [[_ ->] | [_ ->]]; [right; by apply IH | by left].
Qed.

End Session.

End OrmFacts.

(** ** Update-tracked tables *)

Module BaseUpdateTableFacts.
Import Py Orm OrmFacts BaseUpdateTable.

Section Row.
Context {Base : Type}.
Variable base_as_entry : Base → gmap string Value.
Implicit Types (s : Session (Row Base)) (r : Row Base).

Lemma as_entries_of_entities (f : Row Base → gmap string Value)
    (l : list (nat * Row Base)) :
  as_entries_of f ((λ ir, Entity ir.1 ir.2) <$> l) = Ok (f <$> (snd <$> l)).
Proof. induction l as [|ir l IH]; [done |]. csimpl. by rewrite IH. Qed.

Lemma get_from_update_result s (update_id_ : Z) (inclusive as_entries : bool) :
  let c := if inclusive then Ge update_id update_id_ else Gt update_id update_id_ in
  let res := fetch (where_ c select_entities) (table s) in
  get_from_update base_as_entry update_id_ inclusive as_entries s
  = (Ok (if as_entries
         then inr (as_entry base_as_entry <$> List.filter (holds c) (table s))
         else inl res),
     mkSession (table s) true)
  ∧ entities (scalars res) = List.filter (holds c) (table s).
Proof.
  intros c res.
  assert (entities (scalars res) = List.filter (holds c) (table s)) as Hrows.
  { unfold res, fetch. simpl. rewrite scalars_entities, entities_of_cells.
    by apply matching_where. }
  split; [| exact Hrows].
  unfold get_from_update, bind, execute, lift, ret.
  replace (if inclusive
           then where_ (Ge update_id update_id_) select_entities
           else where_ (Gt update_id update_id_) select_entities)
    with (where_ c select_entities) by (unfold c; by destruct inclusive).
  fold res. destruct as_entries; [| done].
  unfold res, fetch. simpl. rewrite scalars_entities, as_entries_of_entities.
  by rewrite (matching_where _ c).
Qed.

Lemma get_last_update_id_result s :
  get_last_update_id s
  = (Ok (Scalar (sql_max (update_id <$> table s))), mkSession (table s) true).
Proof.
  unfold get_last_update_id, bind, execute, lift. by rewrite fetch_max.
Qed.

(** C3: with threshold [T], [get_from_update] returns exactly the rows
    whose [update_id] is at least [T] when [inclusive] is set and exactly
    those above [T] when it is not, as objects or as entries, in table
    order; [get_last_update_id] returns the largest [update_id] of the
    table, and [None] when the table is empty (or holds no [update_id]).
    None of them changes the table. *)
Theorem watermark_queries s (T : Z) :
  (∃ res,
     get_from_update base_as_entry T true false s
     = (Ok (inl res), mkSession (table s) true) ∧
     get_from_update base_as_entry T true true s
     = (Ok (inr (as_entry base_as_entry <$> entities (scalars res))),
        mkSession (table s) true) ∧
     entities (scalars res)
     = List.filter
         (λ r, match update_id r with VInt z => (T <=? z)%Z | VNone => false end)
         (table s) ∧
     ∀ r, r ∈ entities (scalars res)
          ↔ r ∈ table s ∧ ∃ z, update_id r = VInt z ∧ (T ≤ z)%Z)
  ∧ (∃ res,
     get_from_update base_as_entry T false false s
     = (Ok (inl res), mkSession (table s) true) ∧
     get_from_update base_as_entry T false true s
     = (Ok (inr (as_entry base_as_entry <$> entities (scalars res))),
        mkSession (table s) true) ∧
     entities (scalars res)
     = List.filter
         (λ r, match update_id r with VInt z => (T <? z)%Z | VNone => false end)
         (table s) ∧
     ∀ r, r ∈ entities (scalars res)
          ↔ r ∈ table s ∧ ∃ z, update_id r = VInt z ∧ (T < z)%Z)
  ∧ (∃ v,
     get_last_update_id s = (Ok (Scalar v), mkSession (table s) true) ∧
     (table s = [] → v = VNone) ∧
     (∀ m, v = VInt m
           ↔ (∃ r, r ∈ table s ∧ update_id r = VInt m) ∧
             (∀ r z, r ∈ table s → update_id r = VInt z → (z ≤ m)%Z)) ∧
     (v = VNone ↔ ∀ r, r ∈ table s → update_id r = VNone)).
Proof.
  split_and!.
  - destruct (get_from_update_result s T true false) as [Hobj Hrows].
    destruct (get_from_update_result s T true true) as [Hent _].
    cbv zeta in *. eexists. split_and!; [exact Hobj | by rewrite Hrows | exact Hrows |].
    intros r. rewrite Hrows, list_elem_of_In, filter_In, <- list_elem_of_In. simpl.
    split; intros [Hin H]; (split; [done |]).
    + destruct (update_id r) as [|z]; [done |]. exists z. split; [done | lia].
    + destruct H as (z & -> & Hz). lia.
  - destruct (get_from_update_result s T false false) as [Hobj Hrows].
    destruct (get_from_update_result s T false true) as [Hent _].
    cbv zeta in *. eexists. split_and!; [exact Hobj | by rewrite Hrows | exact Hrows |].
    intros r. rewrite Hrows, list_elem_of_In, filter_In, <- list_elem_of_In. simpl.
    split; intros [Hin H]; (split; [done |]).
    + destruct (update_id r) as [|z]; [done |]. exists z. split; [done | lia].
    + destruct H as (z & -> & Hz). lia.
  - exists (sql_max (update_id <$> table s)).
    split_and!.
    + apply get_last_update_id_result.
    + by intros ->.
    + intros m. split.
      * intros Hm. split.
        -- apply sql_max_attained, list_elem_of_fmap in Hm as (r & Hr & Hin). eauto.
        -- intros r z Hin Hz. apply (sql_max_upper _ _ _ Hm).
           apply list_elem_of_fmap. exists r. by rewrite Hz.
      * intros [(r & Hin & Hr) Hup].
        destruct (sql_max (update_id <$> table s)) as [|m'] eqn:Hmax.
        -- pose proof (proj1 (sql_max_None _) Hmax (VInt m)) as H.
           assert (VInt m = VNone); [| done].
           apply H, list_elem_of_fmap. exists r. by rewrite Hr.
        -- f_equal. apply Z.le_antisymm.
           ++ pose proof (sql_max_attained _ _ Hmax) as Hat.
              apply list_elem_of_fmap in Hat as (r' & Hr' & Hin'). by apply (Hup r').
           ++ apply (sql_max_upper _ _ _ Hmax), list_elem_of_fmap. exists r. by rewrite Hr.
    + rewrite sql_max_None. split.
      * intros H r Hin. apply H, list_elem_of_fmap. by exists r.
      * intros H v (r & -> & Hin)%list_elem_of_fmap. by apply H.
Qed.

(** C9: run to completion on a session, the asynchronous queries return
    what the synchronous ones return on it, and leave the session the
    same: the same statement, the same rows, the same entries. *)
Theorem async_queries_agree s (update_id_ : Z) (inclusive as_entries : bool) :
  run_until_complete
    (get_from_update_async base_as_entry update_id_ inclusive as_entries) s
  = get_from_update base_as_entry update_id_ inclusive as_entries s ∧
  run_until_complete get_last_update_id_async s = get_last_update_id s.
Proof.
  split.
  - unfold get_from_update_async, get_from_update, run_until_complete, bind, execute,
      lift, ret.
    destruct as_entries; [| done].
    by destruct (as_entries_of _ _).
  - unfold get_last_update_id_async, get_last_update_id, run_until_complete, bind,
      execute, lift.
    by destruct (one_or_none _).
Qed.

(** C5, as the code has it: [update] merges the mapping and the keyword
    overrides, the overrides winning, and sets [update_id] to the merged
    value when that value is an integer; when [update_id] is missing from
    the merge or is [None] there, [update_id] stays as it was. *)
Theorem update_sets_update_id r (dict_ : option (gmap string Value))
    (kwargs : gmap string Value) :
  let merged := kwargs ∪ default ∅ dict_ in
  (∀ k v, kwargs !! k = Some v → merged !! k = Some v) ∧
  (∀ k, kwargs !! k = None → merged !! k = default ∅ dict_ !! k) ∧
  (∀ z, merged !! "update_id" = Some (VInt z) →
        update_id (update dict_ kwargs r) = VInt z) ∧
  (merged !! "update_id" = None ∨ merged !! "update_id" = Some VNone →
     update_id (update dict_ kwargs r) = update_id r).
Proof.
  intros merged. split_and!.
  - intros k v Hk. by apply lookup_union_Some_l.
  - intros k Hk. by apply lookup_union_r.
  - intros z Hz. unfold update. fold merged. by rewrite Hz.
  - intros [H | H]; unfold update; fold merged; by rewrite H.
Qed.

(** The method stops there: it does not hand the merge on to the parent
    class, so the inherited columns of the row are as they were. *)
Lemma update_keeps_base r (dict_ : option (gmap string Value))
    (kwargs : gmap string Value) :
  base (update dict_ kwargs r) = base r.
Proof. unfold update. by destruct (default VNone _). Qed.

End Row.

Lemma update_sets_update_id_witness :
  update_id (update (Some {["update_id" := VInt 1]}) {["update_id" := VInt 2]}
               (mkRow tt (VInt 0)))
  = VInt 2.
Proof.
  apply (proj1 (proj2 (proj2 (update_sets_update_id (mkRow tt (VInt 0))
                                (Some {["update_id" := VInt 1]})
                                {["update_id" := VInt 2]})))).
  reflexivity.
Defined.

(** C5 as stated fails when the merge holds [update_id] with the value
    [None]: the key is present and the row keeps its old [update_id]. *)
Lemma update_skips_None :
  let row := mkRow tt (VInt 3) in
  let dict_ : gmap string Value := {["update_id" := VNone]} in
  (∅ ∪ dict_) !! "update_id" = Some VNone ∧
  update_id (update (Some dict_) ∅ row) = VInt 3.
Proof. split; reflexivity. Qed.

Example rows_1_2_3 :
  let row (n : Z) := mkRow tt (VInt n) in
  let s := mkSession [row 1%Z; row 2%Z; row 3%Z] false in
  let no_base (_ : unit) : gmap string Value := ∅ in
  get_from_update no_base 2%Z true true s
  = (Ok (inr [ {["update_id" := VInt 2]}; {["update_id" := VInt 3]} ]),
     mkSession [row 1%Z; row 2%Z; row 3%Z] true) ∧
  get_from_update no_base 2%Z false true s
  = (Ok (inr [ {["update_id" := VInt 3]} ]), mkSession [row 1%Z; row 2%Z; row 3%Z] true) ∧
  get_last_update_id s = (Ok (Scalar (VInt 3)), mkSession [row 1%Z; row 2%Z; row 3%Z] true).
Proof. repeat split; reflexivity. Qed.

End BaseUpdateTableFacts.

(** ** Singleton and meta-information tables *)

Module BaseSingletonTableFacts.
Import Py Orm OrmFacts BaseSingletonTable BaseMetaInformationTable.

Section Methods.
Context {Row : Type} (cls : TableClass Row).
Implicit Types (s : Session Row) (entry : option (gmap string Value))
  (kwargs : gmap string Value).

(** What the steps of [set_entry] do on a session, the transaction
    aside. *)
Lemma set_entry_steps s entry kwargs :
  bind (execute select_entities)
       (λ result, call_update cls (scalar result) entry kwargs) s
  = match table s with
    | [] => (Raise (AttributeError "'NoneType' object has no attribute 'update'"),
             mkSession (table s) true)
    | r :: rest => (Ok tt, mkSession (update cls entry kwargs r :: rest) true)
    end.
Proof.
  unfold bind, execute. rewrite scalar_select_entities.
  destruct (table s) as [|r rest]; reflexivity.
Qed.

(** Fields given by keyword reach [insert] when none of them is named
    like a keyword of the call. *)
Lemma call_insert_fields s entry kwargs :
  (∀ k, k ∈ insert_keywords → kwargs !! k = None) →
  call_insert cls entry kwargs s = insert cls entry kwargs s.
Proof.
  intros Hkw. unfold call_insert, insert_keywords in *.
  cbn [List.find]. rewrite !Hkw; [done | set_solver..].
Qed.

(** What the steps of [create_entry] do on a session, the transaction
    aside. *)
Lemma create_entry_steps s entry kwargs :
  bind (execute select_entities)
       (λ result,
          let result := scalar result in
          if is_None result
          then call_insert cls entry kwargs
          else call_update cls result entry kwargs) s
  = match table s with
    | [] => call_insert cls entry kwargs (mkSession (table s) true)
    | r :: rest => (Ok tt, mkSession (update cls entry kwargs r :: rest) true)
    end.
Proof.
  unfold bind, execute. cbv zeta. rewrite scalar_select_entities.
  destruct (table s) as [|r rest]; reflexivity.
Qed.

(** C7: on a table without a row [set_entry] raises and the table stays
    empty; on a table with a row it returns and the row it found is
    updated where it stands, the others untouched.  [set_information] is
    the same call.  With [begin] set, the session must not be inside a
    transaction already. *)
Theorem set_entry_needs_row s entry (begin : bool) kwargs :
  set_information cls entry begin kwargs s = set_entry cls entry begin kwargs s ∧
  (table s = [] →
     ∃ e s', set_entry cls entry begin kwargs s = (Raise e, s') ∧ table s' = []) ∧
  (∀ r rest, table s = r :: rest →
     (begin = true → in_transaction s = false) →
     ∃ s', set_entry cls entry begin kwargs s = (Ok tt, s') ∧
           table s' = update cls entry kwargs r :: rest).
Proof.
  split_and!.
  - reflexivity.
  - intros Hempty. unfold set_entry. destruct begin.
    + unfold with_begin. destruct (in_transaction s); [by eauto |].
      rewrite set_entry_steps. simpl. rewrite Hempty. by eauto.
    + rewrite set_entry_steps, Hempty. by eauto.
  - intros r rest Hrow Htx. unfold set_entry. destruct begin.
    + unfold with_begin. rewrite (Htx eq_refl).
      rewrite set_entry_steps. simpl. rewrite Hrow. by eauto.
    + rewrite set_entry_steps, Hrow. by eauto.
Qed.

(** Inside a transaction, [set_entry] with [begin] set is refused and
    changes nothing. *)
Lemma set_entry_begin_twice s entry kwargs :
  in_transaction s = true →
  set_entry cls entry true kwargs s
  = (Raise (InvalidRequestError "A transaction is already begun on this Session."), s).
Proof. intros H. unfold set_entry, with_begin. by rewrite H. Qed.

End Methods.

Lemma set_entry_needs_row_witness :
  (∃ e s', set_entry BaseTable.cls (Some {["value" := VInt 2]}) true ∅
             (mkSession [] false) = (Raise e, s') ∧ table s' = []) ∧
  (∃ s', set_entry BaseTable.cls (Some {["value" := VInt 2]}) true ∅
           (mkSession [BaseTable.mkRow {["value" := VInt 1]}] false) = (Ok tt, s') ∧
         table s' = [BaseTable.update (Some {["value" := VInt 2]}) ∅
                       (BaseTable.mkRow {["value" := VInt 1]})]).
Proof.
  split.
  - apply (proj1 (proj2 (set_entry_needs_row BaseTable.cls (mkSession [] false)
                           (Some {["value" := VInt 2]}) true ∅))).
    reflexivity.
  - apply (proj2 (proj2 (set_entry_needs_row BaseTable.cls
                           (mkSession [BaseTable.mkRow {["value" := VInt 1]}] false)
                           (Some {["value" := VInt 2]}) true ∅))
             (BaseTable.mkRow {["value" := VInt 1]}) []);
      reflexivity.
Defined.

(** One call of [create_entry] on a table of [BaseTable] rows. *)
Lemma create_entry_result (s : Session BaseTable.Row)
    (entry : option (gmap string Value)) (begin : bool) (kwargs : gmap string Value) :
  (begin = true → in_transaction s = false) →
  (∀ k, k ∈ insert_keywords → kwargs !! k = None) →
  create_entry BaseTable.cls entry begin kwargs s
  = (Ok tt,
     mkSession
       match table s with
       | [] => [BaseTable.mkRow (kwargs ∪ default ∅ entry)]
       | r :: rest => BaseTable.update entry kwargs r :: rest
       end
       (negb begin)).
Proof.
  intros Htx Hkw. unfold create_entry. destruct begin.
  - unfold with_begin. rewrite (Htx eq_refl), create_entry_steps.
    destruct s as [[|r rest] tx]; [| reflexivity].
    cbn [table]. by rewrite call_insert_fields.
  - rewrite create_entry_steps. destruct s as [[|r rest] tx]; [| reflexivity].
    cbn [table]. by rewrite call_insert_fields.
Qed.

(** A field given by keyword under the name of a keyword of the call of
    [insert] makes the first call on an empty table raise. *)
Example create_entry_as_entry_field :
  create_entry BaseTable.cls None false {["as_entry" := VInt 1]} (mkSession [] false)
  = (Raise (TypeError "got multiple values for keyword argument as_entry"),
     mkSession [] true).
Proof. reflexivity. Qed.

(** C4: on a table of at most one row, two calls of [create_entry] with
    the same fields both return and leave exactly one row, and every
    field of the call is a field of that row; on a table that was empty
    the row has those fields and no others.  With [begin] set, the
    session must not be inside a transaction already, and a field given
    by keyword must not be named like a keyword of the call of
    [insert]. *)
Theorem create_entry_twice (s : Session BaseTable.Row)
    (entry : option (gmap string Value)) (begin : bool) (kwargs : gmap string Value) :
  length (table s) ≤ 1 →
  (begin = true → in_transaction s = false) →
  (∀ k, k ∈ insert_keywords → kwargs !! k = None) →
  ∃ s1 s2 r,
    create_entry BaseTable.cls entry begin kwargs s = (Ok tt, s1) ∧
    create_entry BaseTable.cls entry begin kwargs s1 = (Ok tt, s2) ∧
    table s2 = [r] ∧
    kwargs ∪ default ∅ entry ⊆ BaseTable.columns r ∧
    (table s = [] → BaseTable.columns r = kwargs ∪ default ∅ entry).
Proof.
  intros Hlen Htx Hkw.
  pose proof (create_entry_result s entry begin kwargs Htx Hkw) as H1.
  set (s1 := mkSession _ _) in H1.
  assert (begin = true → in_transaction s1 = false) as Htx1
    by (intros ->; reflexivity).
  pose proof (create_entry_result s1 entry begin kwargs Htx1 Hkw) as H2.
  set (s2 := mkSession _ _) in H2.
  destruct s as [[|r0 [|r1 rest]] tx]; simpl in Hlen; [| | lia].
  - exists s1, s2, (BaseTable.update entry kwargs (BaseTable.mkRow (kwargs ∪ default ∅ entry))).
    split_and!; [exact H1 | exact H2 | reflexivity | |].
    + unfold BaseTable.update. cbn [BaseTable.columns]. apply map_union_subseteq_l.
    + intros _. unfold BaseTable.update. cbn [BaseTable.columns]. apply (idemp_L (∪)).
  - exists s1, s2, (BaseTable.update entry kwargs (BaseTable.update entry kwargs r0)).
    split_and!; [exact H1 | exact H2 | reflexivity | | done].
    unfold BaseTable.update. cbn [BaseTable.columns]. apply map_union_subseteq_l.
Qed.

Lemma create_entry_twice_witness :
  ∃ s1 s2 r,
    create_entry BaseTable.cls (Some {["value" := VInt 1]}) true ∅ (mkSession [] false)
    = (Ok tt, s1) ∧
    create_entry BaseTable.cls (Some {["value" := VInt 1]}) true ∅ s1 = (Ok tt, s2) ∧
    table s2 = [r] ∧
    ∅ ∪ default ∅ (Some {["value" := VInt 1]}) ⊆ BaseTable.columns r ∧
    (table (mkSession (Row:=BaseTable.Row) [] false) = [] →
     BaseTable.columns r = ∅ ∪ default ∅ (Some {["value" := VInt 1]})).
Proof.
  apply (create_entry_twice (mkSession [] false) (Some {["value" := VInt 1]}) true ∅).
  - simpl. lia.
  - reflexivity.
  - reflexivity.
Defined.

(** The scenario of the spec: the second call overwrites the value of
    the first, in the one row. *)
Example create_entry_overwrites :
  let put (v : Z) := create_entry BaseTable.cls (Some {["value" := VInt v]}) false ∅ in
  bind (put 1%Z) (λ _, put 2%Z) (mkSession [] false)
  = (Ok tt, mkSession [BaseTable.mkRow {["value" := VInt 2]}] true).
Proof. reflexivity. Qed.

End BaseSingletonTableFacts.

(** ** The database file handle: life cycle *)

Module DatabaseFileLifeCycle.
Import Py DatabaseFile DatabaseFileFacts.



(** X2: in a healthy environment, [open] on a handle that is open
    already puts new engines and factories in place of the old ones and
    disposes of nothing; what is left is what a single [open] with the
    last options gives. *)
Theorem open_again_replaces (env : Env) (self : t) (kwargs1 kwargs2 : Kwargs) :
  healthy env →
  is_Some (_path self) →
  open env kwargs2 (after (open env kwargs1 self))
  = (Ok tt, after (open env kwargs2 self), []).
Proof.
  intros Henv [p Hp]. rewrite !(open_healthy env) by done.
  rewrite (open_with_path kwargs1 self p Hp), (open_with_path kwargs2 self p Hp).
  by rewrite (open_with_path kwargs2 _ p).
Qed.

Lemma open_again_replaces_witness :
  open quiet ∅ (after (open quiet {["echo" := VInt 1]} db_new)) = (Ok tt, db_open, []).
Proof. apply (open_again_replaces quiet db_new); [exact quiet_healthy | by eexists]. Defined.

(** X3: in a healthy environment, [create_file] with a path always
    builds both engines anew, on that path and with the options given,
    whatever the handle held, and disposes of nothing; without a path, on
    a handle that has an engine, it emits the schema on that engine and
    leaves the handle as it is, the options unused. *)
Theorem create_file_engines (env : Env) (self : t) (s : Schema) (kwargs : Kwargs) :
  healthy env →
  schema self = Some s →
  (∀ p,
     let e := create_engine_ ("sqlite:///" +:+ p) kwargs in
     let a := create_async_engine_ ("sqlite+aiosqlite:///" +:+ p) kwargs in
     create_file env (Some p) kwargs self
     = (Ok tt,
        mk (Some p) (Some e) (Some a) (session_maker_kwargs self)
           (_session_maker self) (async_session_maker_kwargs self)
           (_async_session_maker self) (schema self) (tables self),
        [CreateAll s e])) ∧
  (∀ e, _engine self = Some e →
        create_file env None kwargs self = (Ok tt, self, [CreateAll s e])).
Proof.
  intros Henv Hs. destruct self as [pa e a smk sm asmk asm sch tb]. simpl in Hs. subst sch.
  split.
  - intros p. rewrite (create_file_healthy env) by done. by destruct e.
  - intros e' He. rewrite (create_file_healthy env) by done. simpl in He. by subst e.
Qed.

Lemma create_file_engines_witness :
  create_file quiet None {["echo" := VInt 1]} db_open
  = (Ok tt, db_open, [CreateAll "Base" (create_engine_ "sqlite:///db.sqlite" ∅)]).
Proof.
  exact (proj2 (create_file_engines quiet db_open "Base" {["echo" := VInt 1]}
                  quiet_healthy eq_refl) _ eq_refl).
Defined.

(** X4: [close] after [close_async] never raises, inside a running event
    loop or not: it finds no engine to dispose of, clears the factory
    that [close_async] left and returns [True]. *)
Theorem close_completes_close_async (env : Env) (self : t) :
  close env (after (close_async self))
  = (Ok true,
     mk (_path self) None None (session_maker_kwargs self) None
        (async_session_maker_kwargs self) None (schema self) (tables self),
     []).
Proof. rewrite close_async_result. reflexivity. Qed.

(** X5: inside a running event loop, [close] on a handle with both
    engines disposes of the synchronous engine, clears it and the
    synchronous factory, and then raises, the asynchronous engine and
    factory still in place; [close_async] after it disposes of the
    asynchronous engine and leaves the handle closed. *)
Theorem close_in_running_loop (env : Env) (self : t) (e : Engine) (a : AsyncEngine) :
  running_loop env = true →
  _engine self = Some e → _async_engine self = Some a →
  close env self
  = (Raise (RuntimeError "asyncio.run() cannot be called from a running event loop"),
     mk (_path self) None (Some a) (session_maker_kwargs self) None
        (async_session_maker_kwargs self) (_async_session_maker self)
        (schema self) (tables self),
     [Dispose e]) ∧
  close_async (after (close env self))
  = (Ok true,
     mk (_path self) None None (session_maker_kwargs self) None
        (async_session_maker_kwargs self) None (schema self) (tables self),
     [DisposeAsync a]).
Proof.
  intros Hloop He Ha. destruct self as [pa e' a' smk sm asmk asm sch tb].
  simpl in He, Ha. subst e' a'.
  assert (close env (mk pa (Some e) (Some a) smk sm asmk asm sch tb)
          = (Raise (RuntimeError "asyncio.run() cannot be called from a running event loop"),
             mk pa None (Some a) smk None asmk asm sch tb, [Dispose e])) as Hclose.
  { unfold close, bind, get. simpl. rewrite Hloop. reflexivity. }
  rewrite Hclose. split; reflexivity.
Qed.

Lemma close_in_running_loop_witness :
  outcome (close (mkEnv true (λ _ _, None) (λ _ _, None)) db_open)
  = Raise (RuntimeError "asyncio.run() cannot be called from a running event loop").
Proof.
  pose proof (close_in_running_loop (mkEnv true (λ _ _, None) (λ _ _, None)) db_open
                _ _ eq_refl eq_refl eq_refl) as [H _].
  by rewrite H.
Defined.

Lemma unpickle_result (self : t) :
  (is_open self = true → is_Some (_path self)) →
  unpickle quiet (__getstate__ self)
  = (if is_open self then open quiet ∅ else ret tt)
      (mk (_path self) None None (session_maker_kwargs self) None
          (async_session_maker_kwargs self) None (schema self) (tables self)).
Proof.
  intros _. unfold unpickle, __setstate__.
  replace (__getstate__ self !! "is_open") with (Some (ABool (is_open self)))
    by reflexivity.
  by rewrite bind_modify, setstate_of_getstate.
Qed.

(** X6: in a healthy environment, a handle unpickled open has engines
    built on its path with no options and factories bound to them,
    whatever engines, options and factories the pickled handle had, and
    nothing is disposed of. *)
Theorem unpickle_rebuilds_engines (env : Env) (self : t) (p : Path) :
  healthy env →
  is_open self = true → _path self = Some p →
  let e := create_engine_ ("sqlite:///" +:+ p) ∅ in
  let a := create_async_engine_ ("sqlite+aiosqlite:///" +:+ p) ∅ in
  unpickle env (__getstate__ self)
  = (Ok tt,
     mk (Some p) (Some e) (Some a) (session_maker_kwargs self)
        (Some (sessionmaker_ (Some e) ∅)) (async_session_maker_kwargs self)
        (Some (async_sessionmaker_ (Some a) ∅)) (schema self) (tables self),
     []).
Proof.
  intros Henv Hopen Hp. rewrite (unpickle_healthy env) by done.
  unfold unpickle, __setstate__.
  replace (__getstate__ self !! "is_open") with (Some (ABool (is_open self)))
    by reflexivity.
  rewrite bind_modify, Hopen. cbn [truthy].
  rewrite setstate_of_getstate, (open_with_path ∅ _ p) by done. reflexivity.
Qed.

Lemma unpickle_rebuilds_engines_witness :
  _engine (after (unpickle quiet
                    (__getstate__ (after (open quiet {["echo" := VInt 1]} db_new)))))
  = Some (create_engine_ "sqlite:///db.sqlite" ∅).
Proof.
  by rewrite (unpickle_rebuilds_engines quiet (after (open quiet {["echo" := VInt 1]} db_new))
                "db.sqlite" quiet_healthy eq_refl eq_refl).
Defined.

Lemma getstate_ext (h1 h2 : t) :
  is_open h1 = is_open h2 → _path h1 = _path h2 →
  session_maker_kwargs h1 = session_maker_kwargs h2 →
  async_session_maker_kwargs h1 = async_session_maker_kwargs h2 →
  schema h1 = schema h2 → tables h1 = tables h2 →
  __getstate__ h1 = __getstate__ h2.
Proof. rewrite !getstate_entries. by intros -> -> -> -> -> ->. Qed.

(** X7: pickling is stable: in a healthy environment the state of an
    unpickled handle is the state it was unpickled from, for a handle
    that has a path whenever it is open. *)
Theorem getstate_of_unpickled (env : Env) (self : t) :
  healthy env →
  (is_open self = true → is_Some (_path self)) →
  __getstate__ (after (unpickle env (__getstate__ self))) = __getstate__ self.
Proof.
  intros Henv Hpath.
  rewrite (unpickle_healthy env), unpickle_result by done.
  destruct (is_open self) eqn:Hself.
  - destruct (Hpath eq_refl) as [p Hp]. rewrite (open_with_path ∅ _ p) by done.
    apply getstate_ext; try reflexivity; [by rewrite Hself | by rewrite Hp].
  - apply getstate_ext; try reflexivity. by rewrite Hself.
Qed.

Lemma getstate_of_unpickled_witness :
  __getstate__ (after (unpickle quiet (__getstate__ db_open))) = __getstate__ db_open.
Proof.
  apply getstate_of_unpickled; [exact quiet_healthy | intros _; by eexists].
Defined.

End DatabaseFileLifeCycle.

(** ** Update-tracked tables: thresholds and watermarks *)

Module WatermarkFacts.
Import Py Orm OrmFacts BaseUpdateTable BaseUpdateTableFacts.

Section Row.
Context {Base : Type}.
Variable base_as_entry : Base → gmap string Value.
Implicit Types (s : Session (Row Base)) (r : Row Base).



(** X9: the watermark agrees with the queries: when [get_last_update_id]
    returns [m], nothing lies above [m], and the rows from [m] on are the
    rows whose [update_id] is [m], of which there is at least one. *)
Theorem nothing_above_last_update_id s (m : Z) :
  (get_last_update_id s).1 = Ok (Scalar (VInt m)) →
  get_from_update base_as_entry m false true s = (Ok (inr []), mkSession (table s) true) ∧
  ∃ rows,
    get_from_update base_as_entry m true true s
    = (Ok (inr (as_entry base_as_entry <$> rows)), mkSession (table s) true) ∧
    rows ≠ [] ∧
    rows = List.filter (λ r, bool_decide (update_id r = VInt m)) (table s).
Proof.
  rewrite get_last_update_id_result. simpl. intros [= Hmax].
  destruct (get_from_update_result base_as_entry s m false true) as [-> _].
  destruct (get_from_update_result base_as_entry s m true true) as [-> _].
  cbv zeta.
  assert (∀ r, r ∈ table s → holds (Gt update_id m) r = false) as Habove.
  { intros r Hin. simpl. destruct (update_id r) as [|z] eqn:Hz; [done |].
    apply Z.ltb_ge, (sql_max_upper _ _ _ Hmax), list_elem_of_fmap.
    exists r. by rewrite Hz. }
  assert (∀ r, r ∈ table s →
               holds (Ge update_id m) r = bool_decide (update_id r = VInt m)) as Hat.
  { intros r Hin. simpl. destruct (update_id r) as [|z] eqn:Hz; [done |].
    assert (z ≤ m)%Z as Hle.
    { apply (sql_max_upper _ _ _ Hmax), list_elem_of_fmap. exists r. by rewrite Hz. }
    destruct (Z.leb_spec m z).
    - rewrite bool_decide_eq_true_2; [done |]. f_equal. lia.
    - rewrite bool_decide_eq_false_2; [done |]. intros [= ->]. lia. }
  split.
  - rewrite (filter_ext_in _ (λ _, false))
      by (intros r Hin; by apply Habove, list_elem_of_In).
    assert (∀ l : list (Row Base), List.filter (λ _, false) l = []) as ->
      by (induction l; done).
    reflexivity.
  - eexists. split_and!; [reflexivity | |].
    + apply sql_max_attained, list_elem_of_fmap in Hmax as (r & Hr & Hin).
      intros Hnil.
      assert (r ∈ List.filter (holds (Ge update_id m)) (table s)) as Hr'.
      { apply list_elem_of_In, filter_In. split; [by apply list_elem_of_In |].
        rewrite Hat by done. apply bool_decide_eq_true_2. by rewrite Hr. }
      rewrite Hnil in Hr'. by apply elem_of_nil in Hr'.
    + apply filter_ext_in. intros r Hin. by apply Hat, list_elem_of_In.
Qed.

(** X10: a row's entry carries its [update_id] under that key, whatever
    the parent's entry holds there, and feeding the entry of a row back
    to [update] leaves the row as it is; fed to another row, it copies
    the [update_id] when there is one. *)
Theorem update_with_own_entry r (r' : Row Base) :
  as_entry base_as_entry r !! "update_id" = Some (update_id r) ∧
  update (Some (as_entry base_as_entry r)) ∅ r = r ∧
  update (Some (as_entry base_as_entry r)) ∅ r'
  = mkRow (base r') (match update_id r with VNone => update_id r' | v => v end).
Proof.
  assert ((∅ ∪ default ∅ (Some (as_entry base_as_entry r))) !! "update_id"
          = Some (update_id r)) as H.
  { rewrite (left_id_L ∅ (∪)). apply lookup_insert_eq. }
  split_and!.
  - apply lookup_insert_eq.
  - unfold update. rewrite H. destruct r as [b [|z]]; reflexivity.
  - unfold update. rewrite H. destruct r' as [b' u'], r as [b [|z]]; reflexivity.
Qed.

End Row.

Lemma nothing_above_last_update_id_witness :
  get_from_update (λ _ : unit, ∅) 3 false true
    (mkSession [mkRow tt (VInt 1); mkRow tt (VInt 3)] false)
  = (Ok (inr []), mkSession [mkRow tt (VInt 1); mkRow tt (VInt 3)] true).
Proof.
  exact (proj1 (nothing_above_last_update_id (λ _ : unit, ∅)
                  (mkSession [mkRow tt (VInt 1); mkRow tt (VInt 3)] false) 3 eq_refl)).
Defined.

End WatermarkFacts.

(** ** Singleton tables: reading, sequences of calls, coroutines *)

Module SingletonCalls.
Import Py Orm OrmFacts BaseSingletonTable BaseSingletonTableFacts BaseSingletonTableAsync.

Section Methods.
Context {Row : Type} (cls : TableClass Row).
Implicit Types (s : Session Row) (entry : option (gmap string Value))
  (kwargs : gmap string Value).

Lemma get_entry_result s (as_entry_ : bool) :
  get_entry cls as_entry_ s
  = (Ok match table s with
        | [] => inl ∅
        | r :: _ => if as_entry_ then inl (as_entry cls r) else inr r
        end,
     mkSession (table s) true).
Proof.
  unfold get_entry, bind, execute. rewrite scalar_select_entities.
  by destruct (table s).
Qed.


(** X12: what [set_entry] writes, [get_entry] reads: on a table with a
    row, and outside a transaction when [begin] is set, [get_entry] after
    [set_entry] returns the first row as its own [update] left it. *)
Theorem get_entry_after_set_entry s entry (begin : bool) kwargs (r : Row)
    (rest : list Row) :
  table s = r :: rest →
  (begin = true → in_transaction s = false) →
  bind (set_entry cls entry begin kwargs) (λ _, get_entry cls false) s
  = (Ok (inr (update cls entry kwargs r)),
     mkSession (update cls entry kwargs r :: rest) true).
Proof.
  intros Hrow Htx. unfold bind at 1, set_entry. destruct begin.
  - unfold with_begin. rewrite (Htx eq_refl), set_entry_steps. cbn [table].
    rewrite Hrow. by rewrite get_entry_result.
  - rewrite set_entry_steps, Hrow. by rewrite get_entry_result.
Qed.

(** X13: a session that has read is inside a transaction, so a write
    with [begin] set on the same session is refused and changes
    nothing. *)
Theorem begin_refused_after_read s (as_entry_ : bool) entry kwargs :
  let s1 := (get_entry cls as_entry_ s).2 in
  let refused :=
    Raise (InvalidRequestError "A transaction is already begun on this Session.") in
  create_entry cls entry true kwargs s1 = (refused, s1) ∧
  set_entry cls entry true kwargs s1 = (refused, s1).
Proof.
  rewrite get_entry_result. by split.
Qed.

(** X14: no call adds a row to a table that has one, and none removes a
    row: after any sequence of [create_entry], [set_entry] and
    [get_entry] on a table with a row, returned or raised, the table has
    as many rows as before and all rows but the first are as they
    were. *)
Theorem calls_keep_rows (calls : list call) s (r : Row) (rest : list Row) :
  table s = r :: rest →
  ∃ r', table (run cls calls s) = r' :: rest.
Proof.
  revert s r. induction calls as [|c calls IH]; intros s r Hrow; [by exists r |].
  simpl. assert (∃ r', table (perform cls c s) = r' :: rest) as [r' Hr'].
  { destruct c as [entry [|] kwargs | entry [|] kwargs | flag]; simpl.
    - unfold create_entry, with_begin. destruct (in_transaction s); [by eauto |].
      rewrite create_entry_steps. cbn [table]. rewrite Hrow. by eauto.
    - unfold create_entry. rewrite create_entry_steps, Hrow. by eauto.
    - unfold set_entry, with_begin. destruct (in_transaction s); [by eauto |].
      rewrite set_entry_steps. cbn [table]. rewrite Hrow. by eauto.
    - unfold set_entry. rewrite set_entry_steps, Hrow. by eauto.
    - rewrite get_entry_result. by eauto. }
  by apply (IH _ r').
Qed.

End Methods.

Lemma get_entry_after_set_entry_witness :
  bind (set_entry BaseTable.cls (Some {["value" := VInt 2]}) true ∅)
       (λ _, get_entry BaseTable.cls false)
       (mkSession [BaseTable.mkRow {["value" := VInt 1]}] false)
  = (Ok (inr (BaseTable.update (Some {["value" := VInt 2]}) ∅
                (BaseTable.mkRow {["value" := VInt 1]}))),
     mkSession [BaseTable.update (Some {["value" := VInt 2]}) ∅
                  (BaseTable.mkRow {["value" := VInt 1]})] true).
Proof.
  apply (get_entry_after_set_entry BaseTable.cls); reflexivity.
Defined.

Lemma calls_keep_rows_witness :
  ∃ r', table (run BaseTable.cls
                 [Call_create_entry (Some {["value" := VInt 2]}) false ∅;
                  Call_set_entry None true ∅]
                 (mkSession [BaseTable.mkRow ∅; BaseTable.mkRow ∅] false))
        = r' :: [BaseTable.mkRow ∅].
Proof. by apply (calls_keep_rows BaseTable.cls _ _ (BaseTable.mkRow ∅)). Defined.

Section Tasks.
Context {Row : Type} (cls : AsyncTableClass Row).

(** X15: run to completion on a session, the coroutines [get_entry_async]
    and [set_entry_async] return what [get_entry] and [set_entry] return
    and leave the same session, and so does [create_entry_async] against
    [create_entry] when the class's [insert_async] does what its [insert]
    does. *)
Theorem singleton_coroutines_agree (s : Session Row)
    (entry : option (gmap string Value)) (begin as_entry_ : bool)
    (kwargs : gmap string Value) :
  run_task (get_entry_async cls as_entry_) s = get_entry (sync_class cls) as_entry_ s ∧
  run_task (set_entry_async cls entry begin kwargs) s
  = set_entry (sync_class cls) entry begin kwargs s ∧
  ((∀ entry kwargs s,
      run_task (insert_async cls entry kwargs) s = insert (sync_class cls) entry kwargs s) →
   run_task (create_entry_async cls entry begin kwargs) s
   = create_entry (sync_class cls) entry begin kwargs s).
Proof.
  split_and!.
  - unfold get_entry_async, get_entry, bind. simpl.
    destruct (scalar _) as [[i r | v] |]; [done | by destruct as_entry_ | done].
  - unfold set_entry_async, set_entry, bind. by destruct begin.
  - intros Hins.
    assert (∀ s, run_task (call_insert_async cls entry kwargs) s
                 = call_insert (sync_class cls) entry kwargs s) as Hcall.
    { intros s'. unfold call_insert_async, call_insert.
      destruct (List.find _ _); [done | apply Hins]. }
    unfold create_entry_async, create_entry, bind. destruct begin.
    + simpl. unfold with_begin. destruct (in_transaction s); [done |].
      simpl. destruct (is_None _); [by rewrite Hcall | done].
    + simpl. destruct (is_None _); [by rewrite Hcall | done].
Qed.

End Tasks.

Lemma singleton_coroutines_agree_witness :
  run_task (create_entry_async base_table (Some {["value" := VInt 1]}) true ∅)
           (mkSession [] false)
  = create_entry BaseTable.cls (Some {["value" := VInt 1]}) true ∅ (mkSession [] false).
Proof.
  apply (proj2 (proj2 (singleton_coroutines_agree base_table (mkSession [] false)
                         (Some {["value" := VInt 1]}) true true ∅))).
  reflexivity.
Defined.

End SingletonCalls.

(** ** Components *)

Module ComponentFacts.
Import Py DatabaseFile DatabaseFileFacts BaseDatabaseComponent BaseUpdateTableComponent.

Section Component.
Context {Base : Type}.
Variable base_as_entry : Base → gmap string Value.
Variable table : Composite → result unit.
Variable connect : DatabaseFile.Session → Orm.Session (BaseUpdateTable.Row Base).
Variable connect_async :
  DatabaseFile.AsyncSession → Orm.Session (BaseUpdateTable.Row Base).

(** X16: without a session from the caller, the queries of an update
    table component need a composite that is set, alive and open:
    otherwise they raise (a [TypeError] without composite, an
    [AttributeError] once it is gone, the I/O error when it is not open)
    before the table is looked up, and no session is made or closed. *)
Theorem queries_need_open_composite (self : Composite) (e : exn) (update_id : Z)
    (inclusive as_entries : bool) :
  no_session self = Some e →
  get_last_update_id table connect None self = mkOutcome (Raise e) None self [] ∧
  get_from_update base_as_entry table connect update_id None inclusive as_entries self
  = mkOutcome (Raise e) None self [].
Proof.
  intros H. unfold get_last_update_id, get_from_update, in_new_session.
  destruct self as [|[composite|]]; simpl in H.
  - by injection H as <-.
  - destruct (is_open composite) eqn:Hopen; [done |]. injection H as <-.
    simpl. destruct (proj1 (create_session_guard composite [] ∅) Hopen) as [-> _].
    done.
  - by injection H as <-.
Qed.


(** X18: on an open composite with a stored factory, a query without a
    session runs on a session of that factory, which is closed when the
    query has returned; the composite is left as it was. *)
Theorem queries_in_factory_session (composite : DatabaseFile.t) (maker : sessionmaker)
    (update_id : Z) (inclusive as_entries : bool) :
  is_open composite = true →
  _session_maker composite = Some maker →
  table (weakref (Some composite)) = Ok tt →
  let self := weakref (Some composite) in
  let session := sessionmaker_call maker in
  get_last_update_id table connect None self
  = mkOutcome (BaseUpdateTable.get_last_update_id (connect session)).1 None self
              [Close session] ∧
  get_from_update base_as_entry table connect update_id None inclusive as_entries self
  = mkOutcome
      (BaseUpdateTable.get_from_update base_as_entry update_id inclusive as_entries
         (connect session)).1
      None self [Close session].
Proof.
  intros Hopen Hmaker Htable self session.
  unfold get_last_update_id, get_from_update, in_new_session, self.
  cbn [BaseDatabaseComponent.create_session].
  destruct (proj2 (create_session_guard composite [] ∅) Hopen)
    as (_ & _ & _ & _ & Hcall & _).
  rewrite (Hcall maker Hmaker), Htable. done.
Qed.

End Component.

Lemma queries_need_open_composite_witness :
  get_last_update_id (Base:=unit) (λ _, Ok tt) (λ _, Orm.mkSession [] false) None
    (weakref (Some db_new))
  = mkOutcome (Raise (IOError "File not open")) None (weakref (Some db_new)) [].
Proof.
  exact (proj1 (queries_need_open_composite (λ _ : unit, ∅) (λ _, Ok tt)
                  (λ _, Orm.mkSession [] false) (weakref (Some db_new))
                  (IOError "File not open") 0 true true eq_refl)).
Defined.


Lemma queries_in_factory_session_witness :
  get_last_update_id (Base:=unit) (λ _, Ok tt)
    (λ _, Orm.mkSession [BaseUpdateTable.mkRow tt (VInt 3)] false) None
    (weakref (Some db_open))
  = mkOutcome (Ok (Orm.Scalar (VInt 3))) None (weakref (Some db_open))
      [Close (sessionmaker_call
                (sessionmaker_ (Some (create_engine_ "sqlite:///db.sqlite" ∅)) ∅))].
Proof.
  exact (proj1 (queries_in_factory_session (λ _ : unit, ∅) (λ _, Ok tt)
                  (λ _, Orm.mkSession [BaseUpdateTable.mkRow tt (VInt 3)] false)
                  db_open _ 0 true true eq_refl eq_refl eq_refl)).
Defined.

End ComponentFacts.
